(** * Content planner dashboard: filtering, calendar events, routing and
      notification paths

    A shallow embedding of [ContentPlannerApp.tsx] (the dashboard
    component) and of the route table of [App.tsx].  JavaScript objects
    are modelled with their own properties and the properties they
    inherit from [Object.prototype]; asynchronous handlers become
    computations in a small state-and-exception monad over the query cache
    and a log of the effects they issue. *)

From Stdlib Require Import String Ascii List ZArith Bool Lia.
From stdpp Require Import gmap strings list fin_maps.
Import ListNotations.

Local Open Scope string_scope.

(* ===================================================================== *)
(** * JavaScript values                                                   *)
(* ===================================================================== *)

(** The values a property read on a filter map can produce: a boolean flag
    (own property), an object or function (every property inherited from
    [Object.prototype] is one), or [undefined] (no such property). *)
Inductive JSValue : Type :=
| VUndefined
| VBool (b : bool)
| VObject.

Definition ToBoolean (v : JSValue) : bool :=
  match v with
  | VUndefined => false
  | VBool b => b
  | VObject => true
  end.

(** [a && b] evaluates to [a] when [a] is falsy and to [b] otherwise. *)
Definition js_and (a b : JSValue) : JSValue :=
  if ToBoolean a then b else a.

(** Names of the properties every plain object inherits from
    [Object.prototype]: the methods, the [constructor] link and the
    [__proto__] accessor. *)
Definition Object_prototype_keys : list string :=
  [ "constructor"; "hasOwnProperty"; "isPrototypeOf"; "propertyIsEnumerable";
    "toLocaleString"; "toString"; "valueOf"; "__proto__";
    "__defineGetter__"; "__defineSetter__"; "__lookupGetter__";
    "__lookupSetter__" ].

Definition inherited (key : string) : bool :=
  existsb (String.eqb key) Object_prototype_keys.

(** Reading [key] on [Object.prototype] itself. *)
Definition Object_prototype_get (key : string) : JSValue :=
  if inherited key then VObject else VUndefined.

(* ===================================================================== *)
(** * Dates                                                               *)
(* ===================================================================== *)

(** The time value of a [Date]: milliseconds since the epoch, or [None]
    for the NaN of an invalid date. *)
Definition TimeValue : Type := option Z.

Record JSDate : Type := { getTime : TimeValue }.

(** What a [scheduledDate] field holds: a [Date] object (the declared
    type, as [handleSuggestionUse] stores it) or the string a JSON
    response carries. *)
Inductive DateInput : Type :=
| DateObject (d : JSDate)
| DateString (s : string).

(* ===================================================================== *)
(** * Data model                                                          *)
(* ===================================================================== *)

Inductive Platform : Type := Social | Email | Blog.
Inductive Status : Type := Draft | Scheduled | Posted.

#[global] Instance Platform_eq_dec : EqDecision Platform.
Proof. solve_decision. Defined.

#[global] Instance Status_eq_dec : EqDecision Status.
Proof. solve_decision. Defined.

Definition platform_key (p : Platform) : string :=
  match p with
  | Social => "social"
  | Email => "email"
  | Blog => "blog"
  end.

Definition status_key (s : Status) : string :=
  match s with
  | Draft => "draft"
  | Scheduled => "scheduled"
  | Posted => "posted"
  end.

Definition platform_of_key (key : string) : option Platform :=
  if String.eqb key "social" then Some Social
  else if String.eqb key "email" then Some Email
  else if String.eqb key "blog" then Some Blog
  else None.

Definition status_of_key (key : string) : option Status :=
  if String.eqb key "draft" then Some Draft
  else if String.eqb key "scheduled" then Some Scheduled
  else if String.eqb key "posted" then Some Posted
  else None.

(** [platform] and [status] are strings at run time: the filter casts them
    to the key type of the flag maps without checking them. *)
Module ContentItem.
Record t : Type := {
  id : string;
  title : string;
  description : option string;
  platform : string;
  scheduledDate : DateInput;
  status : string;
  createdAt : DateInput;
  updatedAt : DateInput
}.
End ContentItem.

Module CalendarEvent.
Record t : Type := {
  id : string;
  title : string;
  start : JSDate;
  end_ : JSDate;
  resource : ContentItem.t
}.
End CalendarEvent.

(** [filters.platforms] and [filters.statuses]: one own boolean property
    per enumerated key. *)
Record PlatformFlags : Type := { social : bool; email : bool; blog : bool }.
Record StatusFlags : Type := { draft : bool; scheduled : bool; posted : bool }.

Record Filters : Type := {
  platforms : PlatformFlags;
  statuses : StatusFlags
}.

(** The [useState] initial value of [filters]. *)
Definition initial_filters : Filters :=
  {| platforms := {| social := true; email := true; blog := true |};
     statuses := {| draft := true; scheduled := true; posted := true |} |}.

Definition platform_flag (f : PlatformFlags) (p : Platform) : bool :=
  match p with
  | Social => social f
  | Email => email f
  | Blog => blog f
  end.

Definition status_flag (f : StatusFlags) (s : Status) : bool :=
  match s with
  | Draft => draft f
  | Scheduled => scheduled f
  | Posted => posted f
  end.

(** [filters.platforms[key]]: the own property when [key] names one, else
    whatever the prototype chain gives. *)
Definition lookup_platforms (f : PlatformFlags) (key : string) : JSValue :=
  match platform_of_key key with
  | Some p => VBool (platform_flag f p)
  | None => Object_prototype_get key
  end.

Definition lookup_statuses (f : StatusFlags) (key : string) : JSValue :=
  match status_of_key key with
  | Some s => VBool (status_flag f s)
  | None => Object_prototype_get key
  end.

(** [{ ...prev.platforms, [key]: checked }] *)
Definition set_platform (key : Platform) (checked : bool) (f : PlatformFlags)
  : PlatformFlags :=
  match key with
  | Social => {| social := checked; email := email f; blog := blog f |}
  | Email => {| social := social f; email := checked; blog := blog f |}
  | Blog => {| social := social f; email := email f; blog := checked |}
  end.

Definition set_status (key : Status) (checked : bool) (f : StatusFlags)
  : StatusFlags :=
  match key with
  | Draft => {| draft := checked; scheduled := scheduled f; posted := posted f |}
  | Scheduled => {| draft := draft f; scheduled := checked; posted := posted f |}
  | Posted => {| draft := draft f; scheduled := scheduled f; posted := checked |}
  end.

(* ===================================================================== *)
(** * Filtering and calendar events                                       *)
(* ===================================================================== *)

(** The callback handed to [contentItems.filter]. *)
Definition filter_callback (filters : Filters) (item : ContentItem.t) : JSValue :=
  js_and (lookup_platforms (platforms filters) (ContentItem.platform item))
         (lookup_statuses (statuses filters) (ContentItem.status item)).

Definition filteredItems (filters : Filters) (contentItems : list ContentItem.t)
  : list ContentItem.t :=
  List.filter (fun item => ToBoolean (filter_callback filters item)) contentItems.

(** [a.getTime() - b.getTime()]: NaN as soon as one side is. *)
Definition time_diff (a b : JSDate) : TimeValue :=
  match getTime a, getTime b with
  | Some x, Some y => Some (x - y)%Z
  | _, _ => None
  end.

Definition duration (ev : CalendarEvent.t) : TimeValue :=
  time_diff (CalendarEvent.end_ ev) (CalendarEvent.start ev).

Section Dates.

(** [Date.parse], left to the host: its result on strings that are not
    in the ISO format is implementation-defined. *)
Variable Date_parse : string -> TimeValue.

(** [new Date(value)] *)
Definition Date_new (value : DateInput) : JSDate :=
  match value with
  | DateObject d => {| getTime := getTime d |}
  | DateString s => {| getTime := Date_parse s |}
  end.

Definition to_event (item : ContentItem.t) : CalendarEvent.t :=
  {| CalendarEvent.id := ContentItem.id item;
     CalendarEvent.title := ContentItem.title item;
     CalendarEvent.start := Date_new (ContentItem.scheduledDate item);
     CalendarEvent.end_ := Date_new (ContentItem.scheduledDate item);
     CalendarEvent.resource := item |}.

Definition events (filters : Filters) (contentItems : list ContentItem.t)
  : list CalendarEvent.t :=
  List.map to_event (filteredItems filters contentItems).

End Dates.

(** [platformCounts] *)
Definition count_platform (key : string) (contentItems : list ContentItem.t) : nat :=
  length (List.filter (fun item => String.eqb (ContentItem.platform item) key)
                      contentItems).

(* ===================================================================== *)
(** * Component state                                                     *)
(* ===================================================================== *)

(** The six [useState] cells of [ContentPlannerApp].  [view] is a string
    at run time; its declared type is the union of three literals. *)
Record State : Type := {
  isModalOpen : bool;
  isAuthModalOpen : bool;
  editingItem : option ContentItem.t;
  currentDate : JSDate;
  view : string;
  filters : Filters
}.

Definition initial_state (now : JSDate) : State :=
  {| isModalOpen := false;
     isAuthModalOpen := false;
     editingItem := None;
     currentDate := now;
     view := "month";
     filters := initial_filters |}.

Definition setIsModalOpen (b : bool) (st : State) : State :=
  {| isModalOpen := b; isAuthModalOpen := isAuthModalOpen st;
     editingItem := editingItem st; currentDate := currentDate st;
     view := view st; filters := filters st |}.

Definition setIsAuthModalOpen (b : bool) (st : State) : State :=
  {| isModalOpen := isModalOpen st; isAuthModalOpen := b;
     editingItem := editingItem st; currentDate := currentDate st;
     view := view st; filters := filters st |}.

Definition setEditingItem (item : option ContentItem.t) (st : State) : State :=
  {| isModalOpen := isModalOpen st; isAuthModalOpen := isAuthModalOpen st;
     editingItem := item; currentDate := currentDate st;
     view := view st; filters := filters st |}.

Definition setCurrentDate (d : JSDate) (st : State) : State :=
  {| isModalOpen := isModalOpen st; isAuthModalOpen := isAuthModalOpen st;
     editingItem := editingItem st; currentDate := d;
     view := view st; filters := filters st |}.

Definition setView (v : string) (st : State) : State :=
  {| isModalOpen := isModalOpen st; isAuthModalOpen := isAuthModalOpen st;
     editingItem := editingItem st; currentDate := currentDate st;
     view := v; filters := filters st |}.

(** [setFilters(prev => ...)] *)
Definition setFilters (update : Filters -> Filters) (st : State) : State :=
  {| isModalOpen := isModalOpen st; isAuthModalOpen := isAuthModalOpen st;
     editingItem := editingItem st; currentDate := currentDate st;
     view := view st; filters := update (filters st) |}.

(* ===================================================================== *)
(** * The world the handlers run in                                       *)
(* ===================================================================== *)

(** A query key is an array; the keys of this program hold resource names. *)
Definition QueryKey : Type := list string.

Inductive QueryData : Type :=
| ContentList (items : list ContentItem.t)
| OtherData (json : string).

(** A query of the shared cache: its data, whether it was invalidated,
    whether a mounted component observes it and whether a fetch is under
    way. *)
Record CacheEntry : Type := {
  data : option QueryData;
  isInvalidated : bool;
  active : bool;
  fetching : bool
}.

(** What the handlers do to the outside, in the order they do it. *)
Inductive Effect : Type :=
| SignOutCall
| ApiRequest (method url : string)
| InvalidateQueries (queryKey : QueryKey)
| ToastSuccess (message : string)
| ToastError (message : string).

Record User : Type := { userEmail : option string }.

(** What the providers around the component supply and the component
    cannot change: the auth context, the clock, and whether the next
    provider or network call rejects. *)
Record Env : Type := {
  user : option User;
  loading : bool;
  clock : nat -> JSDate;
  signOut_rejects : bool;
  apiRequest_rejects : string -> string -> bool
}.

Record World : Type := {
  env : Env;
  ui : State;
  cache : gmap QueryKey CacheEntry;
  log : list Effect;
  ticks : nat
}.

Definition with_ui (f : State -> State) (w : World) : World :=
  {| env := env w; ui := f (ui w); cache := cache w; log := log w;
     ticks := ticks w |}.

Definition with_cache (f : gmap QueryKey CacheEntry -> gmap QueryKey CacheEntry)
  (w : World) : World :=
  {| env := env w; ui := ui w; cache := f (cache w); log := log w;
     ticks := ticks w |}.

Definition with_log (f : list Effect -> list Effect) (w : World) : World :=
  {| env := env w; ui := ui w; cache := cache w; log := f (log w);
     ticks := ticks w |}.

Definition with_ticks (f : nat -> nat) (w : World) : World :=
  {| env := env w; ui := ui w; cache := cache w; log := log w;
     ticks := f (ticks w) |}.

(** ** A state-and-exception monad *)

Inductive Result (A : Type) : Type :=
| Normal (a : A)
| Throw (error : string).
Arguments Normal {A} a.
Arguments Throw {A} error.

Definition M (A : Type) : Type := World -> Result A * World.

Definition ret {A} (a : A) : M A := fun w => (Normal a, w).

Definition bind {A B} (m : M A) (k : A -> M B) : M B :=
  fun w =>
    match m w with
    | (Normal a, w') => k a w'
    | (Throw e, w') => (Throw e, w')
    end.

Definition throw {A} (e : string) : M A := fun w => (Throw e, w).

(** [try { body } catch (error) { handler }] *)
Definition try_catch {A} (body : M A) (handler : string -> M A) : M A :=
  fun w =>
    match body w with
    | (Normal a, w') => (Normal a, w')
    | (Throw e, w') => handler e w'
    end.

Definition modify (f : World -> World) : M unit := fun w => (Normal tt, f w).

Declare Scope js_scope.
Delimit Scope js_scope with js.
Notation "x <-- c1 ;; c2" := (bind c1 (fun x => c2))
  (at level 100, c1 at next level, right associativity) : js_scope.
Notation "c1 ;; c2" := (bind c1 (fun _ => c2))
  (at level 100, right associativity) : js_scope.
Local Open Scope js_scope.

Definition exec {A} (m : M A) (w : World) : World := snd (m w).
Definition outcome {A} (m : M A) (w : World) : Result A := fst (m w).

Definition emit (e : Effect) : M unit :=
  modify (with_log (fun l => (l ++ [e])%list)).

Definition set_ui (f : State -> State) : M unit := modify (with_ui f).

(** [new Date()]: one reading of the clock. *)
Definition Date_now : M JSDate :=
  fun w => (Normal (clock (env w) (ticks w)), with_ticks S w).

(** ** Auth provider, data API, toasts, query client *)

Definition signOut : M unit :=
  emit SignOutCall ;;
  fun w => if signOut_rejects (env w) then (Throw "auth/error", w)
           else (Normal tt, w).

Definition apiRequest (method url : string) : M unit :=
  emit (ApiRequest method url) ;;
  fun w => if apiRequest_rejects (env w) method url
           then (Throw "request failed", w)
           else (Normal tt, w).

Definition toast_success (message : string) : M unit := emit (ToastSuccess message).
Definition toast_error (message : string) : M unit := emit (ToastError message).

(** A filter key matches the queries whose key it is a prefix of. *)
Fixpoint partialMatchKey (queryKey filterKey : QueryKey) {struct filterKey} : bool :=
  match filterKey, queryKey with
  | [], _ => true
  | f :: fs, q :: qs => String.eqb q f && partialMatchKey qs fs
  | _ :: _, [] => false
  end.

(** Marks a query stale; an observed query is fetched again. *)
Definition invalidate (e : CacheEntry) : CacheEntry :=
  {| data := data e; isInvalidated := true; active := active e;
     fetching := active e || fetching e |}.

Definition invalidate_matching (filterKey : QueryKey)
  (c : gmap QueryKey CacheEntry) : gmap QueryKey CacheEntry :=
  map_imap (fun k e => Some (if partialMatchKey k filterKey then invalidate e else e)) c.

Definition invalidateQueries (queryKey : QueryKey) : M unit :=
  emit (InvalidateQueries queryKey) ;;
  modify (with_cache (invalidate_matching queryKey)).

(** The options of a [useMutation] call and one run of [mutate]: the
    mutation function once, then [onSuccess], and [onError] if either
    rejects; [mutate] itself never throws. *)
Record MutationOptions (V : Type) : Type := {
  mutationFn : V -> M unit;
  onSuccess : M unit;
  onError : M unit
}.
Arguments mutationFn {V} _ _.
Arguments onSuccess {V} _.
Arguments onError {V} _.

Definition mutate {V} (options : MutationOptions V) (variables : V) : M unit :=
  try_catch (mutationFn options variables ;; onSuccess options)
            (fun _ => onError options).

(* ===================================================================== *)
(** * Handlers of the dashboard                                           *)
(* ===================================================================== *)

(** An object handed to [handleSuggestionUse], through the two properties
    the handler reads. *)
Module Suggestion.
Record t : Type := { title : string; platform : string }.
End Suggestion.

(** What [handleSuggestionUse] can be handed, its parameter being typed
    [any]: [undefined], [null], or an object. *)
Inductive SuggestionArg : Type :=
| ArgUndefined
| ArgNull
| ArgObject (suggestion : Suggestion.t).

Definition handleSignOut : M unit :=
  try_catch (signOut ;; toast_success "Signed out successfully")
            (fun _ => toast_error "Failed to sign out").

Definition handleSuggestionUse (suggestion : Suggestion.t) : M unit :=
  scheduledNow <-- Date_now ;;
  createdNow <-- Date_now ;;
  updatedNow <-- Date_now ;;
  set_ui (setEditingItem (Some
    {| ContentItem.id := "";
       ContentItem.title := Suggestion.title suggestion;
       ContentItem.description := None;
       ContentItem.platform := Suggestion.platform suggestion;
       ContentItem.scheduledDate := DateObject scheduledNow;
       ContentItem.status := "draft";
       ContentItem.createdAt := DateObject createdNow;
       ContentItem.updatedAt := DateObject updatedNow |})) ;;
  set_ui (setIsModalOpen true).

(** [handleSuggestionUse] on any argument: reading [suggestion.title] of
    [undefined] or [null] throws, before the clock is read and before any
    state is set. *)
Definition handleSuggestionUse_any (arg : SuggestionArg) : M unit :=
  match arg with
  | ArgObject suggestion => handleSuggestionUse suggestion
  | ArgUndefined | ArgNull => throw "TypeError"
  end.

Definition content_key : QueryKey := ["/api/content"].

Definition deleteMutation : MutationOptions string :=
  {| mutationFn := fun id => apiRequest "DELETE" ("/api/content/" ++ id);
     onSuccess :=
       invalidateQueries content_key ;;
       toast_success "Content item deleted successfully";
     onError := toast_error "Failed to delete content item" |}.

Definition handleSelectEvent (event : CalendarEvent.t) : M unit :=
  set_ui (setEditingItem (Some (CalendarEvent.resource event))) ;;
  set_ui (setIsModalOpen true).

Definition handleSelectSlot : M unit :=
  set_ui (setEditingItem None) ;;
  set_ui (setIsModalOpen true).

(** The "Add New Content" button. *)
Definition addContent_onClick : M unit :=
  set_ui (setEditingItem None) ;;
  set_ui (setIsModalOpen true) ;;
  toast_success "Ready to create amazing content! ✨".

(** [onClose] of the content modal. *)
Definition contentModal_onClose : M unit :=
  set_ui (setIsModalOpen false) ;;
  set_ui (setEditingItem None).

Definition platform_onCheckedChange (key : Platform) (checked : bool) : M unit :=
  set_ui (setFilters (fun prev =>
    {| platforms := set_platform key checked (platforms prev);
       statuses := statuses prev |})).

Definition status_onCheckedChange (key : Status) (checked : bool) : M unit :=
  set_ui (setFilters (fun prev =>
    {| platforms := platforms prev;
       statuses := set_status key checked (statuses prev) |})).

(** The options the three view buttons are rendered from. *)
Definition view_options : list string := ["month"; "week"; "day"].

Definition viewButton_onClick (viewOption : string) : M unit :=
  set_ui (setView viewOption).

(** [onView] of the calendar: the calendar library may hand any of its
    view names. *)
Definition calendar_onView (v : string) : M unit :=
  if String.eqb v "month" || String.eqb v "week" || String.eqb v "day"
  then set_ui (setView v)
  else ret tt.

Definition today_onClick : M unit :=
  now <-- Date_now ;;
  set_ui (setCurrentDate now).

Section Moment.

(** [moment(d).add(n, 'month').toDate()], left to the date library. *)
Variable moment_add_months : Z -> JSDate -> JSDate.

Definition prevMonth_onClick : M unit :=
  set_ui (fun st => setCurrentDate (moment_add_months (-1) (currentDate st)) st).

Definition nextMonth_onClick : M unit :=
  set_ui (fun st => setCurrentDate (moment_add_months 1 (currentDate st)) st).

(** Everything a user or the calendar widget can trigger.  [DeleteMutate]
    stands for a call of [deleteMutation.mutate]: the component builds the
    mutation and wires it to no element of its own. *)
Inductive Action : Type :=
| SignInClick
| AuthModalOpenChange (open : bool)
| SignOutClick
| SuggestionUse (arg : SuggestionArg)
| AddContentClick
| ContentModalClose
| PlatformChecked (key : Platform) (checked : bool)
| StatusChecked (key : Status) (checked : bool)
| PrevMonthClick
| NextMonthClick
| TodayClick
| ViewButtonClick (viewOption : string)
| CalendarView (v : string)
| CalendarNavigate (d : JSDate)
| SelectEvent (event : CalendarEvent.t)
| SelectSlot
| DeleteMutate (id : string).

Definition handler (a : Action) : M unit :=
  match a with
  | SignInClick => set_ui (setIsAuthModalOpen true)
  | AuthModalOpenChange open => set_ui (setIsAuthModalOpen open)
  | SignOutClick => handleSignOut
  | SuggestionUse arg => handleSuggestionUse_any arg
  | AddContentClick => addContent_onClick
  | ContentModalClose => contentModal_onClose
  | PlatformChecked key checked => platform_onCheckedChange key checked
  | StatusChecked key checked => status_onCheckedChange key checked
  | PrevMonthClick => prevMonth_onClick
  | NextMonthClick => nextMonth_onClick
  | TodayClick => today_onClick
  | ViewButtonClick viewOption => viewButton_onClick viewOption
  | CalendarView v => calendar_onView v
  | CalendarNavigate d => set_ui (setCurrentDate d)
  | SelectEvent event => handleSelectEvent event
  | SelectSlot => handleSelectSlot
  | DeleteMutate id => mutate deleteMutation id
  end.

(** A view button exists only for the three options it is rendered
    from; every other action is always on offer. *)
Definition offered (a : Action) : bool :=
  match a with
  | ViewButtonClick viewOption => existsb (String.eqb viewOption) view_options
  | _ => true
  end.

Definition initial_world (e : Env) (c : gmap QueryKey CacheEntry) : World :=
  {| env := e; ui := initial_state (clock e 0); cache := c; log := [];
     ticks := 1 |}.

Definition with_env (e : Env) (w : World) : World :=
  {| env := e; ui := ui w; cache := cache w; log := log w; ticks := ticks w |}.

(** The state cells of a component that is mounted again start over. *)
Definition remount (w : World) : World :=
  with_ui (fun _ => initial_state (clock (env w) (ticks w))) (with_ticks S w).

(** One step of the page: a handler runs to completion, the component is
    mounted again, the providers change what they supply, or the cache
    changes under the component (a fetch settles, another page writes to
    it).  Handlers are not tied to the view that shows their element, so
    the steps cover more than a user can do. *)
Inductive step : World -> World -> Prop :=
| step_action (a : Action) (w : World) :
    offered a = true -> step w (exec (handler a) w)
| step_remount (w : World) :
    step w (remount w)
| step_env (e : Env) (w : World) :
    step w (with_env e w)
| step_cache (c : gmap QueryKey CacheEntry) (w : World) :
    step w (with_cache (fun _ => c) w).

Inductive reachable : World -> Prop :=
| reachable_init (e : Env) (c : gmap QueryKey CacheEntry) :
    reachable (initial_world e c)
| reachable_step (w w' : World) :
    reachable w -> step w w' -> reachable w'.

End Moment.

(* ===================================================================== *)
(** * Rendering                                                           *)
(* ===================================================================== *)

(** [useQuery({ queryKey })]: the cached data and [isLoading] (no data yet
    and a fetch under way; a query that is not in the cache yet is
    created and fetched). *)
Definition useQuery (queryKey : QueryKey) (w : World) : option QueryData * bool :=
  match cache w !! queryKey with
  | Some e => (data e, match data e with
                       | Some _ => false
                       | None => fetching e
                       end)
  | None => (None, true)
  end.

(** [data: contentItems = []]: the default stands in for [undefined]
    only.  Data that is not an array has no [filter] method, so the calls
    on [contentItems] throw; [None] is that case. *)
Definition contentItems_of (d : option QueryData) : option (list ContentItem.t) :=
  match d with
  | None => Some []
  | Some (ContentList items) => Some items
  | Some (OtherData _) => None
  end.

Record DashboardView : Type := {
  dash_user : option User;
  dash_platformCounts : nat * nat * nat;
  dash_filters : Filters;
  dash_view : string;
  dash_date : JSDate;
  dash_calendar : option (list CalendarEvent.t);
  dash_modalOpen : bool;
  dash_editingItem : option ContentItem.t
}.

Inductive Rendered : Type :=
| SignInPrompt (authModalOpen : bool)
| LoadingScreen
| Dashboard (d : DashboardView)
| RenderThrows (error : string).

Section Render.

Variable Date_parse : string -> TimeValue.

(** What the component returns, or that rendering throws;
    [dash_calendar] is [None] while the list is loading (the spinner
    replaces the calendar). *)
Definition ContentPlannerApp (w : World) : Rendered :=
  let user := user (env w) in
  let loading := loading (env w) in
  if negb loading && negb (bool_decide (is_Some user)) then
    SignInPrompt (isAuthModalOpen (ui w))
  else if loading then
    LoadingScreen
  else
    let '(d, isLoading) := useQuery content_key w in
    match contentItems_of d with
    | None => RenderThrows "TypeError"
    | Some contentItems =>
        Dashboard
          {| dash_user := user;
             dash_platformCounts :=
               (count_platform "social" contentItems,
                count_platform "email" contentItems,
                count_platform "blog" contentItems);
             dash_filters := filters (ui w);
             dash_view := view (ui w);
             dash_date := currentDate (ui w);
             dash_calendar :=
               if isLoading then None
               else Some (events Date_parse (filters (ui w)) contentItems);
             dash_modalOpen := isModalOpen (ui w);
             dash_editingItem := editingItem (ui w) |}
    end.

End Render.

(* ===================================================================== *)
(** * Route table                                                         *)
(* ===================================================================== *)

Inductive Page : Type :=
| Landing
| ContentPlanner
| Analytics
| BulkScheduling
| Subscription
| Settings
| NotFound.

(** The children of [<Switch>], in order; [None] is a route without a
    [path]. *)
Definition routes : list (option string * Page) :=
  [ (Some "/", Landing);
    (Some "/app", ContentPlanner);
    (Some "/analytics", Analytics);
    (Some "/bulk-scheduling", BulkScheduling);
    (Some "/subscription", Subscription);
    (Some "/settings", Settings);
    (None, NotFound) ].

(** ** How the router library matches a path against a location

    The location is the value of the router's location hook: the path of
    the URL with its percent escapes already decoded by the library.
    Strings are byte strings; a character outside ASCII is held as its
    UTF-8 bytes.

    A pattern is split at its slashes and compiled, segment by segment, to
    a regular expression [^ source /? $] with the ignore-case flag; a
    segment that starts with [:] or [*] is a parameter.  A route without a
    path is compiled as the pattern of a lone star: a slash, then any run
    of characters matched by the dot, then an optional slash.  It matches
    a location that starts with a slash and holds no line break, since the
    dot of a regular expression matches no line terminator. *)

Definition toLower (c : ascii) : ascii :=
  let n := nat_of_ascii c in
  if (65 <=? n)%nat && (n <=? 90)%nat then ascii_of_nat (n + 32) else c.

Fixpoint lowercase (s : string) : string :=
  match s with
  | EmptyString => EmptyString
  | String c rest => String (toLower c) (lowercase rest)
  end.

(** [s.split('/')] *)
Fixpoint split_slash_aux (current : string) (s : string) : list string :=
  match s with
  | EmptyString => [current]
  | String c rest =>
      if Ascii.eqb c "/" then current :: split_slash_aux EmptyString rest
      else split_slash_aux (current ++ String c EmptyString) rest
  end.

Definition split_slash (s : string) : list string := split_slash_aux EmptyString s.

Definition plain_char (c : ascii) : bool :=
  let n := nat_of_ascii c in
  ((97 <=? n)%nat && (n <=? 122)%nat) || ((65 <=? n)%nat && (n <=? 90)%nat)
  || ((48 <=? n)%nat && (n <=? 57)%nat) || Ascii.eqb c "-" || Ascii.eqb c "_".

Fixpoint plain_segment (s : string) : bool :=
  match s with
  | EmptyString => true
  | String c rest => plain_char c && plain_segment rest
  end.

(** The source of the regular expression for a pattern whose segments are
    all literal; the loop over the segments stops at the first empty one.
    [None] when a segment is a parameter or holds a character that is
    special in a regular expression. *)
Fixpoint literal_source (segments : list string) : option string :=
  match segments with
  | [] => Some EmptyString
  | seg :: rest =>
      if String.eqb seg EmptyString then Some EmptyString
      else if plain_segment seg then
        match literal_source rest with
        | Some src => Some ("/" ++ seg ++ src)
        | None => None
        end
      else None
  end.

Definition compile_pattern (pattern : string) : option string :=
  match split_slash pattern with
  | first :: rest =>
      if String.eqb first EmptyString then literal_source rest
      else literal_source (first :: rest)
  | [] => Some EmptyString
  end.

Definition takes_parameter (pattern : string) : bool :=
  existsb (fun seg => match seg with
                      | String c _ => Ascii.eqb c ":" || Ascii.eqb c "*"
                      | EmptyString => false
                      end)
          (split_slash pattern).

Definition byte_is (c : ascii) (n : nat) : bool := Nat.eqb (nat_of_ascii c) n.

(** Whether a line terminator occurs in [s]: a line feed, a carriage
    return, or one of the separators U+2028 and U+2029. *)
Fixpoint has_line_break (s : string) : bool :=
  match s with
  | EmptyString => false
  | String c rest =>
      byte_is c 10 || byte_is c 13
      || (byte_is c 226
          && match rest with
             | String c1 (String c2 _) =>
                 byte_is c1 128 && (byte_is c2 168 || byte_is c2 169)
             | _ => false
             end)
      || has_line_break rest
  end.

(** The pattern of a lone star. *)
Definition wildcard_match (location : string) : bool :=
  match location with
  | String c rest => Ascii.eqb c "/" && negb (has_line_break rest)
  | EmptyString => false
  end.

Definition matchRoute (path : option string) (location : string) : bool :=
  match path with
  | None => wildcard_match location
  | Some pattern =>
      match compile_pattern pattern with
      | Some src =>
          String.eqb (lowercase location) (lowercase src)
          || String.eqb (lowercase location) (lowercase src ++ "/")
      | None => false
      end
  end.

(** [<Switch>] renders its first child that matches, and nothing when
    none does. *)
Fixpoint Switch (children : list (option string * Page)) (location : string)
  : option Page :=
  match children with
  | [] => None
  | (path, component) :: rest =>
      if matchRoute path location then Some component
      else Switch rest location
  end.

(** The page [Router] renders at [location], the value of the router's
    location hook; [None] when the switch renders nothing. *)
Definition Router (location : string) : option Page := Switch routes location.

(** The six paths of the table with the page each one names. *)
Definition named_pages : list (string * Page) :=
  [ ("/", Landing); ("/app", ContentPlanner); ("/analytics", Analytics);
    ("/bulk-scheduling", BulkScheduling); ("/subscription", Subscription);
    ("/settings", Settings) ].

(** A path with its letters lowered and one trailing slash dropped; the
    root becomes the empty string. *)
Fixpoint drop_last_slash (s : string) : string :=
  match s with
  | EmptyString => EmptyString
  | String c EmptyString => if Ascii.eqb c "/" then EmptyString else s
  | String c rest => String c (drop_last_slash rest)
  end.

Definition canonical (path : string) : string :=
  drop_last_slash (lowercase path).

(* ===================================================================== *)
(** * Vocabulary of the statements                                        *)
(* ===================================================================== *)

(** An item whose platform and status are members of their enumerated
    sets. *)
Definition enumerated (item : ContentItem.t) : Prop :=
  (exists p, ContentItem.platform item = platform_key p)
  /\ (exists s, ContentItem.status item = status_key s).

(** [filters] with the flag of platform [key] set to [checked]. *)
Definition with_platform_flag (key : Platform) (checked : bool) (f : Filters)
  : Filters :=
  {| platforms := set_platform key checked (platforms f);
     statuses := statuses f |}.

(** The duration of an event that starts and ends at the same instant:
    zero, or NaN when that instant is an invalid date. *)
Definition zero_duration (d : JSDate) : TimeValue :=
  match getTime d with
  | Some _ => Some 0%Z
  | None => None
  end.

(** The world with [es] added at the end of its log. *)
Definition append_log (es : list Effect) (w : World) : World :=
  with_log (fun l => (l ++ es)%list) w.

Definition toasts (l : list Effect) : list Effect :=
  List.filter (fun e => match e with
                        | ToastSuccess _ | ToastError _ => true
                        | _ => false
                        end) l.

Definition requests (l : list Effect) : list Effect :=
  List.filter (fun e => match e with
                        | ApiRequest _ _ | SignOutCall => true
                        | _ => false
                        end) l.

Definition invalidations (l : list Effect) : list QueryKey :=
  flat_map (fun e => match e with
                     | InvalidateQueries k => [k]
                     | _ => []
                     end) l.


(** The page of the first named path that is [location] up to letter case
    and one trailing slash; the not-found page when there is none. *)
Definition page_at (location : string) : Page :=
  match List.find (fun entry => String.eqb (canonical location)
                                           (canonical (fst entry)))
                  named_pages with
  | Some (_, page) => page
  | None => NotFound
  end.

Definition sample_item (platform status : string) : ContentItem.t :=
  {| ContentItem.id := "1";
     ContentItem.title := "Launch post";
     ContentItem.description := None;
     ContentItem.platform := platform;
     ContentItem.scheduledDate := DateString "2025-01-15T09:00:00.000Z";
     ContentItem.status := status;
     ContentItem.createdAt := DateString "2025-01-01T00:00:00.000Z";
     ContentItem.updatedAt := DateString "2025-01-01T00:00:00.000Z" |}.

Definition sample_env (u : option User) (isLoading rejects : bool) : Env :=
  {| user := u;
     loading := isLoading;
     clock := fun n => {| getTime := Some (1736931600000 + Z.of_nat n)%Z |};
     signOut_rejects := rejects;
     apiRequest_rejects := fun _ _ => rejects |}.

Definition sample_moment (n : Z) (d : JSDate) : JSDate :=
  {| getTime := (fun t => t + n * 2629800000)%Z <$> getTime d |}.

Definition sample_parse (s : string) : TimeValue :=
  if String.eqb s "2025-01-15T09:00:00.000Z" then Some 1736931600000%Z else None.

Definition sample_entry (items : list ContentItem.t) : CacheEntry :=
  {| data := Some (ContentList items); isInvalidated := false;
     active := true; fetching := false |}.

(* ===================================================================== *)
(** * Event styling                                                       *)
(* ===================================================================== *)

(** The [style] object [eventStyleGetter] returns. *)
Record EventStyle : Type := {
  backgroundColor : string;
  borderColor : string;
  borderRight : string;
  color : string;
  fontSize : string;
  padding : string;
  borderRadius : string
}.

(** The two status colours start as the grey of a draft and are both
    overwritten for a scheduled or a posted item; the right border starts
    as the indigo of social and is overwritten for email and blog. *)
Definition eventStyleGetter (event : CalendarEvent.t) : EventStyle :=
  let status := ContentItem.status (CalendarEvent.resource event) in
  let platform := ContentItem.platform (CalendarEvent.resource event) in
  let '(backgroundColor, borderColor) :=
    if String.eqb status "scheduled" then ("#f59e0b", "#f59e0b")
    else if String.eqb status "posted" then ("#10b981", "#10b981")
    else ("#6b7280", "#6b7280") in
  let borderRight :=
    if String.eqb platform "email" then "3px solid #ef4444"
    else if String.eqb platform "blog" then "3px solid #8b5cf6"
    else "3px solid #6366f1" in
  {| backgroundColor := backgroundColor;
     borderColor := borderColor;
     borderRight := borderRight;
     color := "white";
     fontSize := "12px";
     padding := "2px 4px";
     borderRadius := "4px" |}.

(** [filters] with the flag of status [key] set to [checked]. *)
Definition with_status_flag (key : Status) (checked : bool) (f : Filters)
  : Filters :=
  {| platforms := platforms f;
     statuses := set_status key checked (statuses f) |}.

(** Every flag that is on in [f] is on in [g]. *)
Definition flags_le (f g : Filters) : Prop :=
  (forall p, platform_flag (platforms f) p = true ->
             platform_flag (platforms g) p = true)
  /\ (forall s, status_flag (statuses f) s = true ->
                status_flag (statuses g) s = true).

(** The actions that write [filters]. *)
Definition is_checkbox (a : Action) : bool :=
  match a with
  | PlatformChecked _ _ | StatusChecked _ _ => true
  | _ => false
  end.

(** The six checkbox changes that bring the filters to [f]. *)
Definition check_all (f : Filters) : list Action :=
  [ PlatformChecked Social (social (platforms f));
    PlatformChecked Email (email (platforms f));
    PlatformChecked Blog (blog (platforms f));
    StatusChecked Draft (draft (statuses f));
    StatusChecked Scheduled (scheduled (statuses f));
    StatusChecked Posted (posted (statuses f)) ].

(** The cached list the dashboard reads. *)
Definition cached_items (w : World) : list ContentItem.t :=
  default [] (contentItems_of (fst (useQuery content_key w))).

(** The handlers of a list of actions, one after the other. *)
Definition run_actions (moment_add_months : Z -> JSDate -> JSDate)
  (actions : list Action) (w : World) : World :=
  fold_left (fun w' a => exec (handler moment_add_months a) w') actions w.

(** How many items have a platform that no badge counts. *)
Definition count_uncounted (contentItems : list ContentItem.t) : nat :=
  length (List.filter
            (fun item => match platform_of_key (ContentItem.platform item) with
                         | Some _ => false
                         | None => true
                         end)
            contentItems).

(** The paths of the table. *)
Definition named_paths : list string := List.map fst named_pages.

(** A property name the platform map answers with a truthy value: an
    enumerated platform whose flag is on, or a name inherited from
    [Object.prototype]. *)
Definition platform_passes (f : Filters) (key : string) : Prop :=
  (exists p, key = platform_key p /\ platform_flag (platforms f) p = true)
  \/ inherited key = true.

Definition status_passes (f : Filters) (key : string) : Prop :=
  (exists s, key = status_key s /\ status_flag (statuses f) s = true)
  \/ inherited key = true.

(** The filter state with all six boxes unchecked. *)
Definition no_flags : Filters :=
  {| platforms := {| social := false; email := false; blog := false |};
     statuses := {| draft := false; scheduled := false; posted := false |} |}.

(** The instant an item is scheduled for: the time value of its date
    object, or what the host reads from its date string. *)
Definition scheduled_time (Date_parse : string -> TimeValue)
  (item : ContentItem.t) : TimeValue :=
  match ContentItem.scheduledDate item with
  | DateObject d => getTime d
  | DateString s => Date_parse s
  end.

Definition sample_item_on (scheduledDate : DateInput) : ContentItem.t :=
  {| ContentItem.id := "2";
     ContentItem.title := "Newsletter";
     ContentItem.description := None;
     ContentItem.platform := "email";
     ContentItem.scheduledDate := scheduledDate;
     ContentItem.status := "draft";
     ContentItem.createdAt := DateString "2025-01-01T00:00:00.000Z";
     ContentItem.updatedAt := DateString "2025-01-01T00:00:00.000Z" |}.

(* ===================================================================== *)
(** * Steps through the elements that are on the page                     *)
(* ===================================================================== *)

Section Shown.

Variable Date_parse : string -> TimeValue.
Variable moment_add_months : Z -> JSDate -> JSDate.

(** The component returns the dashboard in [w]. *)
Definition shows_dashboard (w : World) : Prop :=
  exists d, ContentPlannerApp Date_parse w = Dashboard d.

(** The element that triggers [a] is part of what the component returns
    in [w].  The sign-in button and the auth modal belong to the sign-in
    prompt; everything else belongs to the dashboard, the calendar
    callbacks only once the calendar has replaced the spinner, and an
    event can be selected only if the calendar shows it.  The delete
    mutation is wired to no element. *)
Definition available (w : World) (a : Action) : Prop :=
  match ContentPlannerApp Date_parse w with
  | SignInPrompt _ =>
      match a with
      | SignInClick | AuthModalOpenChange _ => True
      | _ => False
      end
  | LoadingScreen => False
  | RenderThrows _ => False
  | Dashboard d =>
      match a with
      | SignInClick | AuthModalOpenChange _ | DeleteMutate _ => False
      | ViewButtonClick viewOption => In viewOption view_options
      | CalendarView _ | CalendarNavigate _ | SelectSlot =>
          is_Some (dash_calendar d)
      | SelectEvent event =>
          exists evs, dash_calendar d = Some evs /\ In event evs
      | _ => True
      end
  end.

(** One step of the page as a user can take it: as [step], with a
    handler running only when its element is on the page. *)
Inductive step_shown : World -> World -> Prop :=
| shown_action (a : Action) (w : World) :
    available w a -> step_shown w (exec (handler moment_add_months a) w)
| shown_remount (w : World) :
    step_shown w (remount w)
| shown_env (e : Env) (w : World) :
    step_shown w (with_env e w)
| shown_cache (c : gmap QueryKey CacheEntry) (w : World) :
    step_shown w (with_cache (fun _ => c) w).

Inductive reachable_shown : World -> Prop :=
| reachable_shown_init (e : Env) (c : gmap QueryKey CacheEntry) :
    reachable_shown (initial_world e c)
| reachable_shown_step (w w' : World) :
    reachable_shown w -> step_shown w w' -> reachable_shown w'.

End Shown.

(* ===================================================================== *)
(** * Property reads on the filter maps                                   *)
(* ===================================================================== *)

Lemma platform_of_key_key (p : Platform) : platform_of_key (platform_key p) = Some p.
Proof. destruct p; reflexivity. Qed.

Lemma status_of_key_key (s : Status) : status_of_key (status_key s) = Some s.
Proof. destruct s; reflexivity. Qed.

Lemma platform_of_key_Some (key : string) (p : Platform) :
  platform_of_key key = Some p -> key = platform_key p.
Proof.
  unfold platform_of_key.
  destruct (String.eqb_spec key "social") as [-> | _]; [intros [= <-]; reflexivity |].
  destruct (String.eqb_spec key "email") as [-> | _]; [intros [= <-]; reflexivity |].
  destruct (String.eqb_spec key "blog") as [-> | _]; [intros [= <-]; reflexivity |].
  discriminate.
Qed.

Lemma status_of_key_Some (key : string) (s : Status) :
  status_of_key key = Some s -> key = status_key s.
Proof.
  unfold status_of_key.
  destruct (String.eqb_spec key "draft") as [-> | _]; [intros [= <-]; reflexivity |].
  destruct (String.eqb_spec key "scheduled") as [-> | _]; [intros [= <-]; reflexivity |].
  destruct (String.eqb_spec key "posted") as [-> | _]; [intros [= <-]; reflexivity |].
  discriminate.
Qed.

Lemma lookup_platforms_key (f : PlatformFlags) (p : Platform) :
  lookup_platforms f (platform_key p) = VBool (platform_flag f p).
Proof. unfold lookup_platforms. rewrite platform_of_key_key. reflexivity. Qed.

Lemma lookup_statuses_key (f : StatusFlags) (s : Status) :
  lookup_statuses f (status_key s) = VBool (status_flag f s).
Proof. unfold lookup_statuses. rewrite status_of_key_key. reflexivity. Qed.

Lemma platform_flag_set (key p : Platform) (checked : bool) (f : PlatformFlags) :
  platform_flag (set_platform key checked f) p
  = if bool_decide (p = key) then checked else platform_flag f p.
Proof. destruct key, p; reflexivity. Qed.

(** The callback on an item of platform [p] and status [s] is the
    conjunction of the two flags. *)
Lemma filter_callback_enumerated (f : Filters) (item : ContentItem.t)
    (p : Platform) (s : Status) :
  ContentItem.platform item = platform_key p ->
  ContentItem.status item = status_key s ->
  ToBoolean (filter_callback f item)
  = platform_flag (platforms f) p && status_flag (statuses f) s.
Proof.
  intros Hp Hs. unfold filter_callback, js_and.
  rewrite Hp, Hs, lookup_platforms_key, lookup_statuses_key. simpl.
  destruct (platform_flag (platforms f) p); reflexivity.
Qed.

(** A falsy platform read decides the callback, whatever the status. *)
Lemma filter_callback_platform_off (f : Filters) (item : ContentItem.t) :
  ToBoolean (lookup_platforms (platforms f) (ContentItem.platform item)) = false ->
  ToBoolean (filter_callback f item) = false.
Proof. intros H. unfold filter_callback, js_and. rewrite H. exact H. Qed.

Lemma filter_callback_status_off (f : Filters) (item : ContentItem.t) :
  ToBoolean (lookup_statuses (statuses f) (ContentItem.status item)) = false ->
  ToBoolean (filter_callback f item) = false.
Proof.
  intros H. unfold filter_callback, js_and.
  destruct (ToBoolean (lookup_platforms _ _)) eqn:E; [exact H | exact E].
Qed.

Lemma filteredItems_In (f : Filters) (contentItems : list ContentItem.t)
    (item : ContentItem.t) :
  In item (filteredItems f contentItems)
  <-> In item contentItems /\ ToBoolean (filter_callback f item) = true.
Proof. unfold filteredItems. apply filter_In. Qed.

(* ===================================================================== *)
(** * The filtered list                                                   *)
(* ===================================================================== *)

(** Unchecking the checkbox of a platform sets that platform's flag to
    false and leaves the rest of the state alone. *)
Lemma platform_onCheckedChange_filters (key : Platform) (checked : bool) (w : World) :
  filters (ui (exec (platform_onCheckedChange key checked) w))
  = with_platform_flag key checked (filters (ui w)).
Proof. reflexivity. Qed.

(** For an item whose platform and status are enumerated, being in the
    filtered list is having been fetched with both its platform's flag
    and its status's flag true; and once a platform's flag is set to
    false, no item of that platform is left in the filtered list. *)
Theorem filteredItems_exactly_flagged :
  forall (f : Filters) (contentItems : list ContentItem.t)
         (item : ContentItem.t) (p : Platform) (s : Status),
    ContentItem.platform item = platform_key p ->
    ContentItem.status item = status_key s ->
    (In item (filteredItems f contentItems)
     <-> In item contentItems
         /\ platform_flag (platforms f) p = true
         /\ status_flag (statuses f) s = true)
    /\ Forall (fun shown => ContentItem.platform shown <> platform_key p)
              (filteredItems (with_platform_flag p false f) contentItems).
Proof.
  intros f contentItems item p s Hp Hs. split.
  - rewrite filteredItems_In, (filter_callback_enumerated f item p s Hp Hs).
    rewrite andb_true_iff. reflexivity.
  - apply List.Forall_forall. intros shown Hin Heq.
    apply filteredItems_In in Hin as [_ Hkeep].
    rewrite filter_callback_platform_off in Hkeep; [discriminate |].
    rewrite Heq. simpl. rewrite lookup_platforms_key, platform_flag_set.
    rewrite bool_decide_eq_true_2 by reflexivity. reflexivity.
Qed.

Lemma filteredItems_exactly_flagged_witness :
  let item := sample_item "email" "scheduled" in
  let other := sample_item "blog" "draft" in
  (In item (filteredItems initial_filters [other; item])
   <-> In item [other; item]
       /\ platform_flag (platforms initial_filters) Email = true
       /\ status_flag (statuses initial_filters) Scheduled = true)
  /\ Forall (fun shown => ContentItem.platform shown <> platform_key Email)
            (filteredItems (with_platform_flag Email false initial_filters)
                           [other; item]).
Proof.
  intros item other.
  apply (filteredItems_exactly_flagged initial_filters [other; item] item
           Email Scheduled); reflexivity.
Defined.

Lemma lookup_platforms_truthy (f : Filters) (key : string) :
  ToBoolean (lookup_platforms (platforms f) key) = true <-> platform_passes f key.
Proof.
  unfold lookup_platforms, platform_passes, Object_prototype_get.
  destruct (platform_of_key key) as [p |] eqn:E.
  - apply platform_of_key_Some in E. subst key. simpl. split.
    + intros H. left. exists p. split; [reflexivity | exact H].
    + intros [[q [Hq Hf]] | Hi].
      * assert (q = p) as -> by (destruct q, p; (reflexivity || discriminate)).
        exact Hf.
      * destruct p; discriminate Hi.
  - destruct (inherited key) eqn:Ei; simpl; split.
    + intros _. right. reflexivity.
    + intros _. reflexivity.
    + discriminate.
    + intros [[q [-> _]] | Hi]; [| discriminate Hi].
      rewrite platform_of_key_key in E. discriminate E.
Qed.

Lemma lookup_statuses_truthy (f : Filters) (key : string) :
  ToBoolean (lookup_statuses (statuses f) key) = true <-> status_passes f key.
Proof.
  unfold lookup_statuses, status_passes, Object_prototype_get.
  destruct (status_of_key key) as [s |] eqn:E.
  - apply status_of_key_Some in E. subst key. simpl. split.
    + intros H. left. exists s. split; [reflexivity | exact H].
    + intros [[q [Hq Hf]] | Hi].
      * assert (q = s) as -> by (destruct q, s; (reflexivity || discriminate)).
        exact Hf.
      * destruct s; discriminate Hi.
  - destruct (inherited key) eqn:Ei; simpl; split.
    + intros _. right. reflexivity.
    + intros _. reflexivity.
    + discriminate.
    + intros [[q [-> _]] | Hi]; [| discriminate Hi].
      rewrite status_of_key_key in E. discriminate E.
Qed.

Lemma filter_callback_truthy (f : Filters) (item : ContentItem.t) :
  ToBoolean (filter_callback f item) = true
  <-> platform_passes f (ContentItem.platform item)
      /\ status_passes f (ContentItem.status item).
Proof.
  rewrite <- lookup_platforms_truthy, <- lookup_statuses_truthy.
  unfold filter_callback, js_and.
  destruct (ToBoolean (lookup_platforms _ _)) eqn:E.
  - split; [intros H; split; [reflexivity | exact H] | intros [_ H]; exact H].
  - rewrite E. split; [discriminate | intros [H _]; discriminate H].
Qed.

(** With all six boxes unchecked no flag is true, and an item whose
    platform is [constructor] and whose status is [toString] is still in
    the filtered list. *)
Lemma inherited_item_shown_without_flags :
  let item := sample_item "constructor" "toString" in
  (forall p, platform_flag (platforms no_flags) p = false)
  /\ (forall s, status_flag (statuses no_flags) s = false)
  /\ In item [item]
  /\ filteredItems no_flags [item] = [item].
Proof.
  simpl. split; [intros p; destruct p; reflexivity |].
  split; [intros s; destruct s; reflexivity |].
  split; [left; reflexivity | reflexivity].
Qed.

(** C1 (amended): for every list of content items and every filter state,
    the filtered list holds exactly the fetched items whose platform and
    whose status each either are enumerated with a true flag or are the
    name of a property inherited from [Object.prototype]; and once a
    platform's flag is set to false, no item of that platform is left in
    the filtered list. *)
Theorem filteredItems_exactly_passing :
  forall (f : Filters) (contentItems : list ContentItem.t)
         (item : ContentItem.t) (key : Platform),
    (In item (filteredItems f contentItems)
     <-> In item contentItems
         /\ platform_passes f (ContentItem.platform item)
         /\ status_passes f (ContentItem.status item))
    /\ Forall (fun shown => ContentItem.platform shown <> platform_key key)
              (filteredItems (with_platform_flag key false f) contentItems).
Proof.
  intros f contentItems item key. split.
  - rewrite filteredItems_In, filter_callback_truthy. reflexivity.
  - apply List.Forall_forall. intros shown Hin Heq.
    apply filteredItems_In in Hin as [_ Hkeep].
    rewrite filter_callback_platform_off in Hkeep; [discriminate |].
    rewrite Heq. simpl. rewrite lookup_platforms_key, platform_flag_set.
    rewrite bool_decide_eq_true_2 by reflexivity. reflexivity.
Qed.

(** A key that is neither an own property nor inherited reads as
    [undefined]. *)
Lemma lookup_platforms_unknown (f : PlatformFlags) (key : string) :
  platform_of_key key = None -> inherited key = false ->
  lookup_platforms f key = VUndefined.
Proof.
  intros Hk Hi. unfold lookup_platforms, Object_prototype_get.
  rewrite Hk, Hi. reflexivity.
Qed.

Lemma lookup_statuses_unknown (f : StatusFlags) (key : string) :
  status_of_key key = None -> inherited key = false ->
  lookup_statuses f key = VUndefined.
Proof.
  intros Hk Hi. unfold lookup_statuses, Object_prototype_get.
  rewrite Hk, Hi. reflexivity.
Qed.

(** A key that is not an own property but is inherited reads as an object,
    whatever the flags are. *)
Lemma lookup_platforms_inherited (f : PlatformFlags) (key : string) :
  platform_of_key key = None -> inherited key = true ->
  lookup_platforms f key = VObject.
Proof.
  intros Hk Hi. unfold lookup_platforms, Object_prototype_get.
  rewrite Hk, Hi. reflexivity.
Qed.

(** An item whose platform is [constructor] is outside the enumerated set
    and still passes the filter: the read finds the inherited property. *)
Lemma inherited_platform_passes_filter :
  let item := sample_item "constructor" "draft" in
  (platform_of_key (ContentItem.platform item) = None
   \/ status_of_key (ContentItem.status item) = None)
  /\ In item (filteredItems initial_filters [item]).
Proof. simpl. split; [left; reflexivity | left; reflexivity]. Qed.

(** C8 (amended): an item whose platform is neither in the enumerated set
    nor the name of a property inherited from [Object.prototype], or
    whose status is neither, is left out of the filtered list whatever
    the flags are. *)
Theorem unknown_key_excluded :
  forall (f : Filters) (contentItems : list ContentItem.t) (item : ContentItem.t),
    (platform_of_key (ContentItem.platform item) = None
     /\ inherited (ContentItem.platform item) = false)
    \/ (status_of_key (ContentItem.status item) = None
        /\ inherited (ContentItem.status item) = false) ->
    ~ In item (filteredItems f contentItems).
Proof.
  intros f contentItems item H Hin.
  apply filteredItems_In in Hin as [_ Hkeep].
  destruct H as [[Hk Hi] | [Hk Hi]].
  - rewrite filter_callback_platform_off in Hkeep; [discriminate |].
    rewrite (lookup_platforms_unknown _ _ Hk Hi). reflexivity.
  - rewrite filter_callback_status_off in Hkeep; [discriminate |].
    rewrite (lookup_statuses_unknown _ _ Hk Hi). reflexivity.
Qed.

Lemma unknown_key_excluded_witness :
  let item := sample_item "tiktok" "draft" in
  ((platform_of_key (ContentItem.platform item) = None
    /\ inherited (ContentItem.platform item) = false)
   \/ (status_of_key (ContentItem.status item) = None
       /\ inherited (ContentItem.status item) = false))
  /\ ~ In item (filteredItems initial_filters [sample_item "blog" "posted"; item]).
Proof.
  intros item.
  assert (H : (platform_of_key (ContentItem.platform item) = None
               /\ inherited (ContentItem.platform item) = false)
              \/ (status_of_key (ContentItem.status item) = None
                  /\ inherited (ContentItem.status item) = false)).
  { left. split; reflexivity. }
  split; [exact H |].
  exact (unknown_key_excluded initial_filters
           [sample_item "blog" "posted"; item] item H).
Defined.

Lemma filter_all_true (f : Filters) (contentItems : list ContentItem.t) :
  (forall item, In item contentItems -> ToBoolean (filter_callback f item) = true) ->
  filteredItems f contentItems = contentItems.
Proof.
  unfold filteredItems. induction contentItems as [| item rest IH]; intros H.
  - reflexivity.
  - simpl. rewrite (H item (or_introl eq_refl)). f_equal.
    apply IH. intros x Hx. apply H. right. exact Hx.
Qed.

(** C9: the initial filter state has every flag true, and under a filter
    state whose six flags are all true the filtered list of a list of
    enumerated items is that list itself. *)
Theorem filteredItems_all_flags_identity :
  forall (f : Filters) (contentItems : list ContentItem.t) (now : JSDate),
    (forall p, platform_flag (platforms f) p = true) ->
    (forall s, status_flag (statuses f) s = true) ->
    Forall enumerated contentItems ->
    filters (initial_state now) = f
    /\ filteredItems f contentItems = contentItems
    /\ filteredItems (filters (initial_state now)) contentItems = contentItems.
Proof.
  intros f contentItems now Hp Hs Hall.
  assert (Hid : filteredItems f contentItems = contentItems).
  { apply filter_all_true. intros item Hin.
    rewrite List.Forall_forall in Hall.
    destruct (Hall item Hin) as [[p Hip] [s His]].
    rewrite (filter_callback_enumerated f item p s Hip His), Hp, Hs.
    reflexivity. }
  assert (Hf : filters (initial_state now) = f).
  { destruct f as [[a b c] [d e g]]. simpl.
    pose proof (Hp Social) as H1. pose proof (Hp Email) as H2.
    pose proof (Hp Blog) as H3. pose proof (Hs Draft) as H4.
    pose proof (Hs Scheduled) as H5. pose proof (Hs Posted) as H6.
    simpl in *. subst. reflexivity. }
  split; [exact Hf |]. split; [exact Hid |]. rewrite Hf. exact Hid.
Qed.

Lemma filteredItems_all_flags_identity_witness :
  let l := [sample_item "social" "draft"; sample_item "email" "posted";
            sample_item "blog" "scheduled"] in
  let now := {| getTime := Some 1736931600000%Z |} in
  filters (initial_state now) = initial_filters
  /\ filteredItems initial_filters l = l
  /\ filteredItems (filters (initial_state now)) l = l.
Proof.
  intros l now.
  apply (filteredItems_all_flags_identity initial_filters l now).
  - intros p. destruct p; reflexivity.
  - intros s. destruct s; reflexivity.
  - repeat constructor.
    + exists Social. reflexivity.
    + exists Draft. reflexivity.
    + exists Email. reflexivity.
    + exists Posted. reflexivity.
    + exists Blog. reflexivity.
    + exists Scheduled. reflexivity.
Defined.

(* ===================================================================== *)
(** * Calendar events                                                     *)
(* ===================================================================== *)

Section EventFacts.

Variable Date_parse : string -> TimeValue.

Lemma time_diff_same (d : JSDate) : time_diff d d = zero_duration d.
Proof.
  unfold time_diff, zero_duration. destruct (getTime d); [| reflexivity].
  f_equal. lia.
Qed.

(** C2 (amended): the events are the filtered items in the same order,
    one event per item, each carrying its item as resource; an event's id
    and title are its item's; its start and its end are both the instant
    its item is scheduled for, so its duration is zero when that instant
    is a valid date, and start, end and duration are all invalid when it
    is not. *)
Theorem events_shape :
  forall (f : Filters) (contentItems : list ContentItem.t),
    List.map CalendarEvent.resource (events Date_parse f contentItems)
    = filteredItems f contentItems
    /\ length (events Date_parse f contentItems)
       = length (filteredItems f contentItems)
    /\ Forall (fun ev =>
                 let item := CalendarEvent.resource ev in
                 CalendarEvent.id ev = ContentItem.id item
                 /\ CalendarEvent.title ev = ContentItem.title item
                 /\ getTime (CalendarEvent.start ev)
                    = scheduled_time Date_parse item
                 /\ getTime (CalendarEvent.end_ ev)
                    = scheduled_time Date_parse item
                 /\ CalendarEvent.end_ ev = CalendarEvent.start ev
                 /\ duration ev
                    = match scheduled_time Date_parse item with
                      | Some _ => Some 0%Z
                      | None => None
                      end)
              (events Date_parse f contentItems).
Proof.
  intros f contentItems. unfold events.
  generalize (filteredItems f contentItems) as l. intros l.
  split; [| split].
  - rewrite List.map_map. simpl. apply List.map_id.
  - apply List.length_map.
  - apply List.Forall_forall. intros ev Hin.
    apply List.in_map_iff in Hin as [item [<- _]].
    assert (Ht : getTime (Date_new Date_parse (ContentItem.scheduledDate item))
                 = scheduled_time Date_parse item).
    { unfold scheduled_time, Date_new.
      destruct (ContentItem.scheduledDate item); reflexivity. }
    simpl. unfold duration. simpl. rewrite time_diff_same.
    unfold zero_duration. rewrite Ht.
    repeat split; reflexivity.
Qed.

End EventFacts.

(** An item whose scheduled date is not a date gives an event whose
    start and end are invalid, and whose duration is not zero but not a
    number; this holds for a date string the host cannot read and for an
    invalid date object alike. *)
Lemma invalid_date_has_no_duration :
  let unread := sample_item_on (DateString "not a date") in
  let invalid := sample_item_on (DateObject {| getTime := None |}) in
  List.map CalendarEvent.resource
    (events sample_parse initial_filters [unread; invalid])
  = [unread; invalid]
  /\ Forall (fun ev => duration ev = None /\ duration ev <> Some 0%Z)
            (events sample_parse initial_filters [unread; invalid]).
Proof.
  simpl. split; [reflexivity |].
  repeat constructor; discriminate.
Qed.

(* ===================================================================== *)
(** * What the component returns                                          *)
(* ===================================================================== *)

Section RenderFacts.

Variable Date_parse : string -> TimeValue.

(** C3: once the auth state is resolved and no user is signed in, the
    component returns the sign-in prompt and not the dashboard; and
    whenever it returns the dashboard, a user is present (and the auth
    state is resolved). *)
Theorem dashboard_requires_user :
  forall (w : World),
    (loading (env w) = false -> user (env w) = None ->
     ContentPlannerApp Date_parse w = SignInPrompt (isAuthModalOpen (ui w))
     /\ forall d, ContentPlannerApp Date_parse w <> Dashboard d)
    /\ (forall d, ContentPlannerApp Date_parse w = Dashboard d ->
        loading (env w) = false
        /\ exists u, user (env w) = Some u /\ dash_user d = Some u).
Proof.
  intros w. unfold ContentPlannerApp.
  destruct (loading (env w)) eqn:Hl, (user (env w)) as [u |] eqn:Hu; simpl.
  - split; [discriminate | discriminate].
  - split; [discriminate | discriminate].
  - split; [discriminate |].
    destruct (useQuery content_key w) as [d0 isLoading].
    destruct (contentItems_of d0); [| discriminate].
    intros d [= <-]. split; [reflexivity |]. exists u. split; reflexivity.
  - split; [| discriminate].
    intros _ _. split; [reflexivity | discriminate].
Qed.

End RenderFacts.

Lemma dashboard_requires_user_witness :
  let signedOut := initial_world (sample_env None false false) ∅ in
  let signedIn :=
    initial_world (sample_env (Some {| userEmail := Some "ana@example.org" |})
                              false false)
                  {[ content_key := sample_entry [sample_item "blog" "draft"] ]} in
  ContentPlannerApp sample_parse signedOut = SignInPrompt false
  /\ exists d, ContentPlannerApp sample_parse signedIn = Dashboard d
               /\ loading (env signedIn) = false
               /\ exists u, user (env signedIn) = Some u /\ dash_user d = Some u.
Proof.
  intros signedOut signedIn. split.
  - exact (proj1 (proj1 (dashboard_requires_user sample_parse signedOut)
                        eq_refl eq_refl)).
  - eexists. split; [reflexivity |].
    exact (proj2 (dashboard_requires_user sample_parse signedIn) _ eq_refl).
Defined.

(* ===================================================================== *)
(** * Runs of the effectful handlers                                      *)
(* ===================================================================== *)

Lemma handleSignOut_run (w : World) :
  handleSignOut w
  = (Normal tt,
     append_log [SignOutCall;
                 if signOut_rejects (env w)
                 then ToastError "Failed to sign out"
                 else ToastSuccess "Signed out successfully"] w).
Proof.
  cbv [handleSignOut try_catch bind signOut toast_success toast_error
       emit modify append_log with_log env ui cache log ticks].
  destruct w as [e u c l t]. destruct (signOut_rejects e);
    rewrite <- app_assoc; reflexivity.
Qed.

Lemma deleteMutation_rejected_run (id : string) (w : World) :
  apiRequest_rejects (env w) "DELETE" ("/api/content/" ++ id) = true ->
  mutate deleteMutation id w
  = (Normal tt,
     append_log [ApiRequest "DELETE" ("/api/content/" ++ id);
                 ToastError "Failed to delete content item"] w).
Proof.
  intros H.
  destruct w as [e u c l t]. cbn [env] in H.
  cbv [mutate deleteMutation try_catch bind apiRequest toast_error
       mutationFn onSuccess onError
       emit modify append_log with_log env ui cache log ticks].
  rewrite H. rewrite <- app_assoc. reflexivity.
Qed.

Lemma deleteMutation_resolved_run (id : string) (w : World) :
  apiRequest_rejects (env w) "DELETE" ("/api/content/" ++ id) = false ->
  mutate deleteMutation id w
  = (Normal tt,
     append_log [ApiRequest "DELETE" ("/api/content/" ++ id);
                 InvalidateQueries content_key;
                 ToastSuccess "Content item deleted successfully"]
       (with_cache (invalidate_matching content_key) w)).
Proof.
  intros H.
  destruct w as [e u c l t]. cbn [env] in H.
  cbv [mutate deleteMutation try_catch bind apiRequest invalidateQueries
       toast_success mutationFn onSuccess onError
       emit modify append_log with_log with_cache env ui cache log ticks].
  rewrite H. rewrite <- !app_assoc. reflexivity.
Qed.

(* ===================================================================== *)
(** * The view state                                                      *)
(* ===================================================================== *)

Lemma existsb_eqb_In (v : string) (l : list string) :
  existsb (String.eqb v) l = true -> In v l.
Proof.
  intros H. apply existsb_exists in H as [x [Hin Heq]].
  apply String.eqb_eq in Heq. subst. exact Hin.
Qed.

Lemma calendar_onView_view (v : string) (w : World) :
  In (view (ui w)) view_options ->
  In (view (ui (exec (calendar_onView v) w))) view_options.
Proof.
  intros H. unfold calendar_onView.
  destruct (String.eqb v "month" || String.eqb v "week" || String.eqb v "day")
    eqn:E.
  - change (In v view_options). apply existsb_eqb_In. simpl.
    rewrite orb_false_r, orb_assoc. exact E.
  - exact H.
Qed.

Section ViewFacts.

Variable moment_add_months : Z -> JSDate -> JSDate.

(** No handler that is on offer leaves the three view names. *)
Lemma handler_keeps_view (a : Action) (w : World) :
  offered a = true ->
  In (view (ui w)) view_options ->
  In (view (ui (exec (handler moment_add_months a) w))) view_options.
Proof.
  intros Hoff H. destruct a; try (destruct arg); try exact H.
  - unfold exec, handler. rewrite handleSignOut_run. exact H.
  - apply existsb_eqb_In. exact Hoff.
  - apply calendar_onView_view. exact H.
  - unfold exec, handler.
    destruct (apiRequest_rejects (env w) "DELETE" ("/api/content/" ++ id))
      eqn:E.
    + rewrite (deleteMutation_rejected_run id w E). exact H.
    + rewrite (deleteMutation_resolved_run id w E). exact H.
Qed.

(** C10: in every reachable state the calendar view is one of month,
    week and day: it starts as month, a view button sets one of the
    three, and [onView] drops any other name. *)
Theorem view_always_known :
  forall (w : World),
    reachable moment_add_months w ->
    In (view (ui w)) view_options.
Proof.
  intros w Hr. induction Hr as [e c | w w' _ IH Hstep].
  - left. reflexivity.
  - inversion Hstep; subst.
    + apply handler_keeps_view; assumption.
    + left. reflexivity.
    + exact IH.
    + exact IH.
Qed.

End ViewFacts.

Lemma view_always_known_witness :
  let w0 := initial_world (sample_env None false false) ∅ in
  let w1 := exec (handler sample_moment (CalendarView "agenda")) w0 in
  let w2 := exec (handler sample_moment (ViewButtonClick "week")) w1 in
  reachable sample_moment w2
  /\ view (ui w1) = "month" /\ view (ui w2) = "week"
  /\ In (view (ui w2)) view_options.
Proof.
  intros w0 w1 w2.
  assert (H : reachable sample_moment w2).
  { apply (reachable_step sample_moment w1 w2).
    - apply (reachable_step sample_moment w0 w1).
      + apply reachable_init.
      + apply step_action. reflexivity.
    - apply step_action. reflexivity. }
  split; [exact H |]. split; [reflexivity |]. split; [reflexivity |].
  exact (view_always_known sample_moment w2 H).
Defined.

(* ===================================================================== *)
(** * Failure and success paths                                           *)
(* ===================================================================== *)

Lemma toasts_app (l l' : list Effect) : toasts (l ++ l') = (toasts l ++ toasts l')%list.
Proof. unfold toasts. apply List.filter_app. Qed.

Lemma requests_app (l l' : list Effect) :
  requests (l ++ l') = (requests l ++ requests l')%list.
Proof. unfold requests. apply List.filter_app. Qed.

Lemma invalidations_app (l l' : list Effect) :
  invalidations (l ++ l') = (invalidations l ++ invalidations l')%list.
Proof. unfold invalidations. apply List.flat_map_app. Qed.

(** C4: a rejected sign-out and a rejected delete are both absorbed by
    their handler (the handler completes normally); each adds exactly one
    toast, an error toast, to the log; the failed call was issued once and
    is not issued again; and a rejected delete invalidates nothing and
    leaves the cache as it was. *)
Theorem failure_toasts_once :
  forall (w : World) (id : string),
    (signOut_rejects (env w) = true ->
     let w' := exec handleSignOut w in
     outcome handleSignOut w = Normal tt
     /\ toasts (log w') = (toasts (log w) ++ [ToastError "Failed to sign out"])%list
     /\ requests (log w') = (requests (log w) ++ [SignOutCall])%list
     /\ cache w' = cache w)
    /\ (apiRequest_rejects (env w) "DELETE" ("/api/content/" ++ id) = true ->
        let w' := exec (mutate deleteMutation id) w in
        outcome (mutate deleteMutation id) w = Normal tt
        /\ toasts (log w')
           = (toasts (log w) ++ [ToastError "Failed to delete content item"])%list
        /\ requests (log w')
           = (requests (log w) ++ [ApiRequest "DELETE" ("/api/content/" ++ id)])%list
        /\ invalidations (log w') = invalidations (log w)
        /\ cache w' = cache w).
Proof.
  intros w id. split.
  - intros H. unfold exec, outcome. rewrite handleSignOut_run, H. simpl.
    rewrite toasts_app, requests_app. repeat split; reflexivity.
  - intros H. unfold exec, outcome. rewrite (deleteMutation_rejected_run id w H).
    simpl. rewrite toasts_app, requests_app, invalidations_app. simpl.
    rewrite app_nil_r. repeat split; reflexivity.
Qed.

Lemma failure_toasts_once_witness :
  let w := initial_world (sample_env (Some {| userEmail := None |}) false true)
             {[ content_key := sample_entry [sample_item "blog" "draft"] ]} in
  (log (exec handleSignOut w) = [SignOutCall; ToastError "Failed to sign out"]
   /\ toasts (log (exec handleSignOut w)) = [ToastError "Failed to sign out"])
  /\ (log (exec (mutate deleteMutation "1") w)
      = [ApiRequest "DELETE" "/api/content/1";
         ToastError "Failed to delete content item"]
      /\ cache (exec (mutate deleteMutation "1") w) = cache w).
Proof.
  intros w. split.
  - split; [reflexivity |].
    exact (proj1 (proj2 (proj1 (failure_toasts_once w "1") eq_refl))).
  - split; [reflexivity |].
    exact (proj2 (proj2 (proj2 (proj2 (proj2 (failure_toasts_once w "1") eq_refl))))).
Defined.

Lemma invalidate_matching_lookup (filterKey k : QueryKey)
    (c : gmap QueryKey CacheEntry) :
  invalidate_matching filterKey c !! k
  = (fun e => if partialMatchKey k filterKey then invalidate e else e) <$> c !! k.
Proof.
  unfold invalidate_matching. rewrite map_lookup_imap.
  destruct (c !! k); reflexivity.
Qed.




(* ===================================================================== *)
(** * What the client checks on an item                                   *)
(* ===================================================================== *)

Lemma truthy_platform_read (f : PlatformFlags) (key : string) :
  ToBoolean (lookup_platforms f key) = true ->
  is_Some (platform_of_key key) \/ inherited key = true.
Proof.
  unfold lookup_platforms, Object_prototype_get.
  destruct (platform_of_key key) as [p |]; [intros _; left; eexists; reflexivity |].
  destruct (inherited key); [intros _; right; reflexivity | discriminate].
Qed.

Lemma truthy_status_read (f : StatusFlags) (key : string) :
  ToBoolean (lookup_statuses f key) = true ->
  is_Some (status_of_key key) \/ inherited key = true.
Proof.
  unfold lookup_statuses, Object_prototype_get.
  destruct (status_of_key key) as [s |]; [intros _; left; eexists; reflexivity |].
  destruct (inherited key); [intros _; right; reflexivity | discriminate].
Qed.

Lemma handleSuggestionUse_run (suggestion : Suggestion.t) (w : World) :
  exists created,
    editingItem (ui (exec (handleSuggestionUse suggestion) w)) = Some created
    /\ ContentItem.id created = ""
    /\ ContentItem.title created = Suggestion.title suggestion
    /\ ContentItem.platform created = Suggestion.platform suggestion
    /\ ContentItem.status created = "draft"
    /\ isModalOpen (ui (exec (handleSuggestionUse suggestion) w)) = true.
Proof. eexists. repeat split. Qed.

(** An item made from a suggestion keeps the suggestion's platform
    unchecked, and an item whose platform and status name inherited
    properties is put on the calendar. *)
Lemma unchecked_items_are_handled :
  let w := initial_world (sample_env None false false) ∅ in
  let suggestion := {| Suggestion.title := "Clip"; Suggestion.platform := "tiktok" |} in
  let item := sample_item "valueOf" "toString" in
  (exists created,
     editingItem (ui (exec (handleSuggestionUse suggestion) w)) = Some created
     /\ platform_of_key (ContentItem.platform created) = None
     /\ isModalOpen (ui (exec (handleSuggestionUse suggestion) w)) = true)
  /\ (List.map CalendarEvent.resource (events sample_parse initial_filters [item])
      = [item]
      /\ platform_of_key (ContentItem.platform item) = None
      /\ status_of_key (ContentItem.status item) = None).
Proof.
  simpl. split.
  - eexists. split; [reflexivity |]. split; reflexivity.
  - split; [reflexivity |]. split; reflexivity.
Qed.

(** C7 (amended): every item of the filtered list has a platform that is
    enumerated or names an inherited property, and a status that is
    enumerated or names an inherited property; an item made from a
    suggestion has status draft and the suggestion's platform as it came;
    and the filter reads nothing of an item but its platform and status,
    so two items that agree on both are kept or dropped together. *)
Theorem client_checks_on_items :
  forall (f : Filters) (contentItems : list ContentItem.t)
         (item other : ContentItem.t) (suggestion : Suggestion.t) (w : World),
    In item (filteredItems f contentItems) ->
    (is_Some (platform_of_key (ContentItem.platform item))
     \/ inherited (ContentItem.platform item) = true)
    /\ (is_Some (status_of_key (ContentItem.status item))
        \/ inherited (ContentItem.status item) = true)
    /\ (ContentItem.platform other = ContentItem.platform item ->
        ContentItem.status other = ContentItem.status item ->
        filteredItems f [other] = [other])
    /\ (exists created,
          editingItem (ui (exec (handleSuggestionUse suggestion) w)) = Some created
          /\ ContentItem.status created = "draft"
          /\ ContentItem.platform created = Suggestion.platform suggestion).
Proof.
  intros f contentItems item other suggestion w Hin.
  apply filteredItems_In in Hin as [_ Hkeep].
  assert (Hp : ToBoolean (lookup_platforms (platforms f)
                            (ContentItem.platform item)) = true).
  { destruct (ToBoolean (lookup_platforms _ _)) eqn:E; [reflexivity |].
    rewrite (filter_callback_platform_off f item E) in Hkeep. discriminate. }
  assert (Hs : ToBoolean (lookup_statuses (statuses f)
                            (ContentItem.status item)) = true).
  { destruct (ToBoolean (lookup_statuses _ _)) eqn:E; [reflexivity |].
    rewrite (filter_callback_status_off f item E) in Hkeep. discriminate. }
  split; [exact (truthy_platform_read _ _ Hp) |].
  split; [exact (truthy_status_read _ _ Hs) |].
  split.
  - intros Ep Es. unfold filteredItems, filter_callback. simpl.
    rewrite Ep, Es. fold (filter_callback f item). rewrite Hkeep. reflexivity.
  - destruct (handleSuggestionUse_run suggestion w)
      as [created [H1 [_ [_ [H2 [H3 _]]]]]].
    exists created. split; [exact H1 |]. split; [exact H3 | exact H2].
Qed.

Lemma client_checks_on_items_witness :
  let item := sample_item "blog" "draft" in
  let other := sample_item "blog" "draft" in
  let suggestion := {| Suggestion.title := "Clip"; Suggestion.platform := "tiktok" |} in
  let w := initial_world (sample_env None false false) ∅ in
  In item (filteredItems initial_filters [item])
  /\ (is_Some (platform_of_key (ContentItem.platform item))
      \/ inherited (ContentItem.platform item) = true)
  /\ (exists created,
        editingItem (ui (exec (handleSuggestionUse suggestion) w)) = Some created
        /\ ContentItem.status created = "draft"
        /\ ContentItem.platform created = "tiktok").
Proof.
  intros item other suggestion w.
  assert (Hin : In item (filteredItems initial_filters [item])).
  { left. reflexivity. }
  pose proof (client_checks_on_items initial_filters [item] item other
                suggestion w Hin) as [Hp [_ [_ Hc]]].
  split; [exact Hin |]. split; [exact Hp | exact Hc].
Defined.

(* ===================================================================== *)
(** * Routing                                                             *)
(* ===================================================================== *)

Lemma drop_last_slash_app_slash (p : string) : drop_last_slash (p ++ "/") = p.
Proof.
  induction p as [| c rest IH]; [reflexivity |].
  change (drop_last_slash (String c (rest ++ "/")) = String c rest).
  destruct (rest ++ "/") as [| c' rest'] eqn:E.
  - destruct rest; discriminate.
  - rewrite <- IH. reflexivity.
Qed.

Lemma drop_last_slash_cases (s : string) :
  s = drop_last_slash s \/ s = drop_last_slash s ++ "/".
Proof.
  induction s as [| c rest IH]; [left; reflexivity |].
  destruct rest as [| c' rest'].
  - simpl. destruct (Ascii.eqb_spec c "/") as [-> | _]; [right | left]; reflexivity.
  - change (drop_last_slash (String c (String c' rest')))
      with (String c (drop_last_slash (String c' rest'))).
    remember (drop_last_slash (String c' rest')) as dropped eqn:Hd. clear Hd.
    destruct IH as [IH | IH]; [left | right]; rewrite IH; reflexivity.
Qed.

(** Matching with an optional trailing slash is comparing after the
    trailing slash is dropped. *)
Lemma eqb_or_slash (s p : string) :
  drop_last_slash p = p ->
  String.eqb s p || String.eqb s (p ++ "/") = String.eqb (drop_last_slash s) p.
Proof.
  intros Hp. apply eq_true_iff_eq. rewrite orb_true_iff, !String.eqb_eq. split.
  - intros [-> | ->]; [exact Hp | apply drop_last_slash_app_slash].
  - intros <-. apply drop_last_slash_cases.
Qed.

Lemma matchRoute_literal (pattern src location : string) :
  compile_pattern pattern = Some src ->
  lowercase src = src ->
  drop_last_slash src = src ->
  matchRoute (Some pattern) location = String.eqb (canonical location) src.
Proof.
  intros Hc Hl Hd. unfold matchRoute, canonical. rewrite Hc, Hl.
  apply eqb_or_slash. exact Hd.
Qed.

Lemma Router_find (location : string) :
  Router location
  = match List.find (fun entry => String.eqb (canonical location)
                                             (canonical (fst entry)))
                    named_pages with
    | Some (_, page) => Some page
    | None => if wildcard_match location then Some NotFound else None
    end.
Proof.
  unfold Router, routes, Switch, named_pages.
  rewrite (matchRoute_literal "/" "") by reflexivity.
  rewrite (matchRoute_literal "/app" "/app") by reflexivity.
  rewrite (matchRoute_literal "/analytics" "/analytics") by reflexivity.
  rewrite (matchRoute_literal "/bulk-scheduling" "/bulk-scheduling") by reflexivity.
  rewrite (matchRoute_literal "/subscription" "/subscription") by reflexivity.
  rewrite (matchRoute_literal "/settings" "/settings") by reflexivity.
  cbn [List.find fst matchRoute].
  change (canonical "/") with "".
  change (canonical "/app") with "/app".
  change (canonical "/analytics") with "/analytics".
  change (canonical "/bulk-scheduling") with "/bulk-scheduling".
  change (canonical "/subscription") with "/subscription".
  change (canonical "/settings") with "/settings".
  repeat match goal with
         | |- context [String.eqb (canonical location) ?p] =>
             destruct (String.eqb (canonical location) p); [reflexivity |]
         end.
  reflexivity.
Qed.

(** Two named paths that agree up to letter case and a trailing slash are
    the same entry of the table. *)
Lemma named_pages_canonical_inj (e1 e2 : string * Page) :
  In e1 named_pages -> In e2 named_pages ->
  canonical (fst e1) = canonical (fst e2) -> e1 = e2.
Proof.
  intros H1 H2 Hc. simpl in H1, H2.
  repeat (destruct H1 as [<- | H1]; [
    repeat (destruct H2 as [<- | H2]; [reflexivity || discriminate Hc |]);
    destruct H2 |]).
  destruct H1.
Qed.

Lemma Router_named (location : string) (entry : string * Page) :
  In entry named_pages ->
  canonical location = canonical (fst entry) ->
  Router location = Some (snd entry).
Proof.
  intros Hin Hc. rewrite Router_find.
  destruct (List.find _ named_pages) as [[path page] |] eqn:E.
  - apply List.find_some in E as [Hin' Heq]. apply String.eqb_eq in Heq.
    assert (entry = (path, page)) as ->.
    { apply named_pages_canonical_inj; [exact Hin | exact Hin' |].
      rewrite <- Hc. exact Heq. }
    reflexivity.
  - pose proof (List.find_none _ _ E entry Hin) as Hn. simpl in Hn.
    apply String.eqb_neq in Hn. contradiction.
Qed.

Lemma Router_unnamed (location : string) :
  Forall (fun entry => canonical location <> canonical (fst entry)) named_pages ->
  Router location = if wildcard_match location then Some NotFound else None.
Proof.
  intros Hall. rewrite Router_find.
  destruct (List.find _ named_pages) as [[path page] |] eqn:E; [| reflexivity].
  apply List.find_some in E as [Hin Heq]. apply String.eqb_eq in Heq.
  rewrite List.Forall_forall in Hall. destruct (Hall _ Hin Heq).
Qed.

(** The path [/app/] is none of the six paths of the table and resolves
    to the main app page, not to the not-found page. *)
Lemma trailing_slash_reaches_app :
  ~ In "/app/" (List.map fst named_pages)
  /\ Router "/app/" = Some ContentPlanner
  /\ Router "/Settings" = Some Settings.
Proof.
  split; [| split; reflexivity].
  simpl. intros H.
  repeat (destruct H as [H | H]; [discriminate H |]). exact H.
Qed.

(** C6 (amended): the children of the switch are the six named paths, in
    order, followed by a route without a path; no path takes a parameter;
    each of the six paths resolves to its page; a location (the path as
    the router's location hook supplies it, percent escapes decoded)
    resolves to the page of the named path it equals up to letter case
    and one trailing slash; every other location resolves to the
    not-found page when it starts with a slash and holds no line break,
    and to nothing otherwise. *)
Theorem Router_resolves :
  forall (location : string),
    routes = (List.map (fun entry => (Some (fst entry), snd entry)) named_pages
              ++ [(None, NotFound)])%list
    /\ Forall (fun entry => takes_parameter (fst entry) = false) named_pages
    /\ Forall (fun entry => Router (fst entry) = Some (snd entry)) named_pages
    /\ (forall entry, In entry named_pages ->
         canonical location = canonical (fst entry) ->
         Router location = Some (snd entry))
    /\ (Forall (fun entry => canonical location <> canonical (fst entry))
               named_pages ->
        Router location
        = if wildcard_match location then Some NotFound else None)
    /\ (wildcard_match location = true ->
        Router location = Some (page_at location)).
Proof.
  intros location.
  split; [reflexivity |].
  split; [repeat constructor |].
  split; [repeat constructor |].
  split; [intros entry; apply Router_named |].
  split; [apply Router_unnamed |].
  intros Hw. rewrite Router_find. unfold page_at.
  destruct (List.find _ named_pages) as [[path page] |]; [reflexivity |].
  rewrite Hw. reflexivity.
Qed.

Lemma Router_resolves_witness :
  let broken := "/foo" ++ String (ascii_of_nat 10) "bar" in
  Router "/pricing" = Some NotFound
  /\ Router broken = None
  /\ Router "/BULK-scheduling/" = Some BulkScheduling
  /\ wildcard_match "/BULK-scheduling/" = true
  /\ Router "/BULK-scheduling/" = Some (page_at "/BULK-scheduling/").
Proof.
  intros broken.
  pose proof (Router_resolves "/pricing") as [_ [_ [_ [_ [H1 _]]]]].
  pose proof (Router_resolves broken) as [_ [_ [_ [_ [H0 _]]]]].
  pose proof (Router_resolves "/BULK-scheduling/") as [_ [_ [_ [H2 [_ H3]]]]].
  split; [| split; [| split; [| split]]].
  - rewrite H1; [reflexivity |]. repeat constructor; discriminate.
  - rewrite H0; [reflexivity |]. repeat constructor; discriminate.
  - apply (H2 ("/bulk-scheduling", BulkScheduling)); [| reflexivity].
    right. right. right. left. reflexivity.
  - reflexivity.
  - apply H3. reflexivity.
Defined.


(* ===================================================================== *)
(** * More on the filtered list                                           *)
(* ===================================================================== *)

Lemma filter_sublist_gen {A} (keep keep' : A -> bool) (l : list A) :
  (forall x, In x l -> keep x = true -> keep' x = true) ->
  sublist (List.filter keep l) (List.filter keep' l).
Proof.
  induction l as [| x rest IH]; intros H; [constructor |].
  assert (IH' : sublist (List.filter keep rest) (List.filter keep' rest)).
  { apply IH. intros y Hy. apply H. right. exact Hy. }
  simpl. destruct (keep x) eqn:E.
  - rewrite (H x (or_introl eq_refl) E). apply sublist_skip. exact IH'.
  - destruct (keep' x); [apply sublist_cons |]; exact IH'.
Qed.

Lemma filter_sublist_self {A} (keep : A -> bool) (l : list A) :
  sublist (List.filter keep l) l.
Proof.
  induction l as [| x rest IH]; [constructor |].
  simpl. destruct (keep x); [apply sublist_skip | apply sublist_cons]; exact IH.
Qed.

(** X1: the filtered list is the fetched list with some items struck out:
    what remains keeps its order and its multiplicity, so the filter never
    reorders, repeats or invents an item, and never returns more items
    than it was given. *)
Theorem filteredItems_sublist :
  forall (f : Filters) (contentItems : list ContentItem.t),
    sublist (filteredItems f contentItems) contentItems
    /\ (length (filteredItems f contentItems) <= length contentItems)%nat.
Proof.
  intros f contentItems.
  assert (H : sublist (filteredItems f contentItems) contentItems)
    by apply filter_sublist_self.
  split; [exact H | apply sublist_length; exact H].
Qed.

(** X2: filtering again with the same flags changes nothing, and the
    filtered list of two lists put end to end is the two filtered lists
    put end to end. *)
Theorem filteredItems_idempotent_app :
  forall (f : Filters) (l1 l2 : list ContentItem.t),
    filteredItems f (filteredItems f l1) = filteredItems f l1
    /\ filteredItems f (l1 ++ l2) = (filteredItems f l1 ++ filteredItems f l2)%list.
Proof.
  intros f l1 l2. split.
  - apply filter_all_true. intros item Hin.
    apply filteredItems_In in Hin as [_ H]. exact H.
  - unfold filteredItems. apply List.filter_app.
Qed.

Lemma filter_callback_mono (f g : Filters) (item : ContentItem.t) :
  flags_le f g ->
  ToBoolean (filter_callback f item) = true ->
  ToBoolean (filter_callback g item) = true.
Proof.
  intros [Hp Hs]. unfold filter_callback, js_and, lookup_platforms, lookup_statuses.
  destruct (platform_of_key (ContentItem.platform item)) as [p |]; simpl.
  - destruct (platform_flag (platforms f) p) eqn:Ef; [| discriminate].
    rewrite (Hp p Ef).
    destruct (status_of_key (ContentItem.status item)) as [s |]; simpl.
    + apply Hs.
    + intros H. exact H.
  - destruct (ToBoolean (Object_prototype_get (ContentItem.platform item)));
      [| intros H; exact H].
    destruct (status_of_key (ContentItem.status item)) as [s |]; simpl.
    + apply Hs.
    + intros H. exact H.
Qed.

(** X3: checking more boxes only adds items: when every flag that is on
    in [f] is on in [g], the list filtered under [f] is the list filtered
    under [g] with some items struck out. *)
Theorem filteredItems_monotone :
  forall (f g : Filters) (contentItems : list ContentItem.t),
    flags_le f g ->
    sublist (filteredItems f contentItems) (filteredItems g contentItems).
Proof.
  intros f g contentItems Hle. unfold filteredItems.
  apply filter_sublist_gen. intros item _. apply filter_callback_mono. exact Hle.
Qed.

Lemma filteredItems_monotone_witness :
  let f := with_platform_flag Email false initial_filters in
  let l := [sample_item "email" "draft"; sample_item "blog" "posted"] in
  flags_le f initial_filters
  /\ sublist (filteredItems f l) (filteredItems initial_filters l).
Proof.
  intros f l.
  assert (H : flags_le f initial_filters).
  { split; [intros p _; destruct p; reflexivity
           | intros s _; destruct s; reflexivity]. }
  split; [exact H | exact (filteredItems_monotone f initial_filters l H)].
Defined.

Lemma inherited_not_platform (key : string) :
  inherited key = true -> platform_of_key key = None.
Proof.
  intros H. apply existsb_exists in H as [k [Hin Heq]].
  apply String.eqb_eq in Heq. subst k.
  simpl in Hin.
  repeat (destruct Hin as [<- | Hin]; [reflexivity |]). destruct Hin.
Qed.

Lemma inherited_not_status (key : string) :
  inherited key = true -> status_of_key key = None.
Proof.
  intros H. apply existsb_exists in H as [k [Hin Heq]].
  apply String.eqb_eq in Heq. subst k.
  simpl in Hin.
  repeat (destruct Hin as [<- | Hin]; [reflexivity |]). destruct Hin.
Qed.

(** X4: no setting of the checkboxes hides an item whose platform and
    status both name properties inherited from [Object.prototype]: under
    every filter state it is in the filtered list as soon as it was
    fetched. *)
Theorem inherited_keys_always_shown :
  forall (f : Filters) (contentItems : list ContentItem.t) (item : ContentItem.t),
    inherited (ContentItem.platform item) = true ->
    inherited (ContentItem.status item) = true ->
    (In item (filteredItems f contentItems) <-> In item contentItems).
Proof.
  intros f contentItems item Hp Hs. rewrite filteredItems_In.
  assert (H : ToBoolean (filter_callback f item) = true).
  { unfold filter_callback, js_and, lookup_platforms, lookup_statuses,
      Object_prototype_get.
    rewrite (inherited_not_platform _ Hp), (inherited_not_status _ Hs), Hp, Hs.
    reflexivity. }
  split; [intros [Hin _]; exact Hin | intros Hin; split; [exact Hin | exact H]].
Qed.

Lemma inherited_keys_always_shown_witness :
  let item := sample_item "hasOwnProperty" "__proto__" in
  let none :=
    {| platforms := {| social := false; email := false; blog := false |};
       statuses := {| draft := false; scheduled := false; posted := false |} |} in
  inherited (ContentItem.platform item) = true
  /\ inherited (ContentItem.status item) = true
  /\ (In item (filteredItems none [sample_item "blog" "draft"; item])
      <-> In item [sample_item "blog" "draft"; item])
  /\ filteredItems none [sample_item "blog" "draft"; item] = [item].
Proof.
  intros item none.
  split; [reflexivity |]. split; [reflexivity |].
  split; [| reflexivity].
  exact (inherited_keys_always_shown none [sample_item "blog" "draft"; item]
           item eq_refl eq_refl).
Defined.

Lemma status_flag_set (key s : Status) (checked : bool) (f : StatusFlags) :
  status_flag (set_status key checked f) s
  = if bool_decide (s = key) then checked else status_flag f s.
Proof. destruct key, s; reflexivity. Qed.

(** X5: once a status's flag is set to false, no item of that status is
    left in the filtered list, whatever its platform is (enumerated or
    not) and whatever the platform flags are. *)
Theorem status_unchecked_removes_status :
  forall (f : Filters) (contentItems : list ContentItem.t) (key : Status),
    Forall (fun shown => ContentItem.status shown <> status_key key)
           (filteredItems (with_status_flag key false f) contentItems).
Proof.
  intros f contentItems key. apply List.Forall_forall. intros shown Hin Heq.
  apply filteredItems_In in Hin as [_ Hkeep].
  rewrite filter_callback_status_off in Hkeep; [discriminate |].
  rewrite Heq. simpl. rewrite lookup_statuses_key, status_flag_set.
  rewrite bool_decide_eq_true_2 by reflexivity. reflexivity.
Qed.

(** X6: writing a flag and reading it back.  After [key] is set to
    [checked] in the platform map, reading the property [key] gives
    [checked] and reading any other property name, enumerated or not,
    gives what it gave before; the same holds for the status map. *)
Theorem flag_write_then_read :
  forall (pf : PlatformFlags) (sf : StatusFlags) (p : Platform) (s : Status)
         (checked : bool) (name : string),
    lookup_platforms (set_platform p checked pf) name
    = (if String.eqb name (platform_key p) then VBool checked
       else lookup_platforms pf name)
    /\ lookup_statuses (set_status s checked sf) name
       = (if String.eqb name (status_key s) then VBool checked
          else lookup_statuses sf name).
Proof.
  intros pf sf p s checked name. split.
  - unfold lookup_platforms.
    destruct (platform_of_key name) as [q |] eqn:E.
    + apply platform_of_key_Some in E. subst name. rewrite platform_flag_set.
      destruct (String.eqb_spec (platform_key q) (platform_key p)) as [Hk | Hk].
      * assert (q = p) as -> by (destruct q, p; (reflexivity || discriminate)).
        rewrite bool_decide_eq_true_2 by reflexivity. reflexivity.
      * rewrite bool_decide_eq_false_2; [reflexivity |].
        intros ->. apply Hk. reflexivity.
    + destruct (String.eqb_spec name (platform_key p)) as [-> | _];
        [| reflexivity].
      rewrite platform_of_key_key in E. discriminate.
  - unfold lookup_statuses.
    destruct (status_of_key name) as [q |] eqn:E.
    + apply status_of_key_Some in E. subst name. rewrite status_flag_set.
      destruct (String.eqb_spec (status_key q) (status_key s)) as [Hk | Hk].
      * assert (q = s) as -> by (destruct q, s; (reflexivity || discriminate)).
        rewrite bool_decide_eq_true_2 by reflexivity. reflexivity.
      * rewrite bool_decide_eq_false_2; [reflexivity |].
        intros ->. apply Hk. reflexivity.
    + destruct (String.eqb_spec name (status_key s)) as [-> | _];
        [| reflexivity].
      rewrite status_of_key_key in E. discriminate.
Qed.

(* ===================================================================== *)
(** * What the handlers do and leave alone                                *)
(* ===================================================================== *)





Lemma calendar_onView_run (v : string) (w : World) :
  calendar_onView v w
  = (Normal tt,
     if String.eqb v "month" || String.eqb v "week" || String.eqb v "day"
     then with_ui (setView v) w else w).
Proof.
  unfold calendar_onView.
  destruct (String.eqb v "month" || String.eqb v "week" || String.eqb v "day");
    reflexivity.
Qed.

Lemma invalidate_matching_data (filterKey k : QueryKey)
    (c : gmap QueryKey CacheEntry) :
  data <$> invalidate_matching filterKey c !! k = data <$> c !! k.
Proof.
  rewrite invalidate_matching_lookup.
  destruct (c !! k) as [e |]; [| reflexivity]. simpl.
  destruct (partialMatchKey k filterKey); reflexivity.
Qed.

Section HandlerFacts.

Variable moment_add_months : Z -> JSDate -> JSDate.

(** What a handler does to the world, for the two handlers whose course
    depends on the outside. *)
Lemma handler_signOut_exec (w : World) :
  exec (handler moment_add_months SignOutClick) w
  = append_log [SignOutCall;
                if signOut_rejects (env w)
                then ToastError "Failed to sign out"
                else ToastSuccess "Signed out successfully"] w.
Proof. unfold exec, handler. rewrite handleSignOut_run. reflexivity. Qed.

Lemma handler_delete_exec (id : string) (w : World) :
  exec (handler moment_add_months (DeleteMutate id)) w
  = if apiRequest_rejects (env w) "DELETE" ("/api/content/" ++ id)
    then append_log [ApiRequest "DELETE" ("/api/content/" ++ id);
                     ToastError "Failed to delete content item"] w
    else append_log [ApiRequest "DELETE" ("/api/content/" ++ id);
                     InvalidateQueries content_key;
                     ToastSuccess "Content item deleted successfully"]
           (with_cache (invalidate_matching content_key) w).
Proof.
  unfold exec, handler.
  destruct (apiRequest_rejects (env w) "DELETE" ("/api/content/" ++ id)) eqn:E.
  - rewrite (deleteMutation_rejected_run id w E). reflexivity.
  - rewrite (deleteMutation_resolved_run id w E). reflexivity.
Qed.

(** X8: every handler completes normally, whatever the action and
    whatever the provider and the network do, with one exception:
    [handleSuggestionUse] handed [undefined] or [null] throws a type
    error, and then nothing has changed. *)
Theorem handlers_throw_only_without_suggestion :
  forall (a : Action) (w : World),
    match a with
    | SuggestionUse ArgUndefined | SuggestionUse ArgNull =>
        outcome (handler moment_add_months a) w = Throw "TypeError"
        /\ exec (handler moment_add_months a) w = w
    | _ => outcome (handler moment_add_months a) w = Normal tt
    end.
Proof.
  intros a w. destruct a; try (destruct arg); try reflexivity;
    try (split; reflexivity).
  - unfold outcome, handler. rewrite handleSignOut_run. reflexivity.
  - unfold outcome, handler. rewrite calendar_onView_run. reflexivity.
  - unfold outcome, handler.
    destruct (apiRequest_rejects (env w) "DELETE" ("/api/content/" ++ id)) eqn:E.
    + rewrite (deleteMutation_rejected_run id w E). reflexivity.
    + rewrite (deleteMutation_resolved_run id w E). reflexivity.
Qed.

(** X9: no handler edits cached data, adds a cache entry or removes one:
    after any action every query key holds the data it held before. *)
Theorem handlers_keep_cached_data :
  forall (a : Action) (w : World) (k : QueryKey),
    data <$> cache (exec (handler moment_add_months a) w) !! k
    = data <$> cache w !! k.
Proof.
  intros a w k. destruct a; try (destruct arg); try reflexivity.
  - rewrite handler_signOut_exec. reflexivity.
  - unfold exec, handler. rewrite calendar_onView_run. simpl.
    destruct (String.eqb v "month" || String.eqb v "week" || String.eqb v "day");
      reflexivity.
  - rewrite handler_delete_exec.
    destruct (apiRequest_rejects (env w) "DELETE" ("/api/content/" ++ id));
      [reflexivity |].
    simpl. apply invalidate_matching_data.
Qed.

(** X10: the cache is written by the delete mutation only: every other
    action leaves the whole cache, stale marks included, as it was. *)
Theorem only_delete_touches_cache :
  forall (a : Action) (w : World),
    (forall id, a <> DeleteMutate id) ->
    cache (exec (handler moment_add_months a) w) = cache w.
Proof.
  intros a w Hne. destruct a; try (destruct arg); try reflexivity.
  - rewrite handler_signOut_exec. reflexivity.
  - unfold exec, handler. rewrite calendar_onView_run. simpl.
    destruct (String.eqb v "month" || String.eqb v "week" || String.eqb v "day");
      reflexivity.
  - destruct (Hne id). reflexivity.
Qed.

(** X11: the filters are written by the checkboxes only: after any other
    action the filter state, and with it the filtered list of any fetched
    list, is what it was. *)
Theorem only_checkboxes_touch_filters :
  forall (a : Action) (w : World) (contentItems : list ContentItem.t),
    is_checkbox a = false ->
    filters (ui (exec (handler moment_add_months a) w)) = filters (ui w)
    /\ filteredItems (filters (ui (exec (handler moment_add_months a) w)))
                     contentItems
       = filteredItems (filters (ui w)) contentItems.
Proof.
  intros a w contentItems Hc.
  assert (H : filters (ui (exec (handler moment_add_months a) w))
              = filters (ui w)).
  { destruct a; try (destruct arg); try reflexivity; try discriminate Hc.
    - rewrite handler_signOut_exec. reflexivity.
    - unfold exec, handler. rewrite calendar_onView_run. simpl.
      destruct (String.eqb v "month" || String.eqb v "week" || String.eqb v "day");
        reflexivity.
    - rewrite handler_delete_exec.
      destruct (apiRequest_rejects (env w) "DELETE" ("/api/content/" ++ id));
        reflexivity. }
  split; [exact H | rewrite H; reflexivity].
Qed.

(** X12: an action shows at most one toast, and nothing is ever taken
    out of the log: the log after a handler is the log before it with the
    handler's effects added at the end. *)
Theorem handlers_toast_at_most_once :
  forall (a : Action) (w : World),
    exists es,
      log (exec (handler moment_add_months a) w) = (log w ++ es)%list
      /\ (length (toasts es) <= 1)%nat.
Proof.
  intros a w.
  destruct a; try (destruct arg);
    try (exists []; split; [symmetry; apply app_nil_r | simpl; lia]).
  - rewrite handler_signOut_exec. eexists. split; [reflexivity |].
    destruct (signOut_rejects (env w)); simpl; lia.
  - eexists. split; [reflexivity |]. simpl. lia.
  - unfold exec, handler. rewrite calendar_onView_run. simpl.
    exists []. split; [| simpl; lia].
    destruct (String.eqb v "month" || String.eqb v "week" || String.eqb v "day");
      symmetry; apply app_nil_r.
  - rewrite handler_delete_exec.
    destruct (apiRequest_rejects (env w) "DELETE" ("/api/content/" ++ id));
      eexists; (split; [reflexivity | simpl; lia]).
Qed.

(** No handler breaks: a closed modal has no item being edited. *)
Lemma handler_keeps_modal (a : Action) (w : World) :
  (isModalOpen (ui w) = false -> editingItem (ui w) = None) ->
  isModalOpen (ui (exec (handler moment_add_months a) w)) = false ->
  editingItem (ui (exec (handler moment_add_months a) w)) = None.
Proof.
  intros H. destruct a; try (destruct arg); try exact H;
    try (simpl; discriminate);
    try (intros _; reflexivity).
  - rewrite handler_signOut_exec. exact H.
  - unfold exec, handler. rewrite calendar_onView_run. simpl.
    destruct (String.eqb v "month" || String.eqb v "week" || String.eqb v "day");
      exact H.
  - rewrite handler_delete_exec.
    destruct (apiRequest_rejects (env w) "DELETE" ("/api/content/" ++ id));
      exact H.
Qed.

(** X13: in every reachable state, a closed content modal has no item
    being edited: the handlers that put an item in [editingItem] open the
    modal in the same run, and closing the modal clears the item. *)
Theorem closed_modal_edits_nothing :
  forall (w : World),
    reachable moment_add_months w ->
    isModalOpen (ui w) = false ->
    editingItem (ui w) = None.
Proof.
  intros w Hr. induction Hr as [e c | w w' _ IH Hstep].
  - intros _. reflexivity.
  - inversion Hstep; subst.
    + apply handler_keeps_modal. exact IH.
    + intros _. reflexivity.
    + exact IH.
    + exact IH.
Qed.

Lemma run_check_all (f : Filters) (w : World) :
  run_actions moment_add_months (check_all f) w
  = with_ui (setFilters (fun _ => f)) w.
Proof. destruct f as [[a b c] [d e g]]. reflexivity. Qed.


End HandlerFacts.

Section ReachFacts.

Variable Date_parse : string -> TimeValue.
Variable moment_add_months : Z -> JSDate -> JSDate.

(** Whether the dashboard is returned depends on the auth context and on
    the cache only. *)
Lemma shows_dashboard_frame (w w' : World) :
  env w' = env w -> cache w' = cache w ->
  shows_dashboard Date_parse w -> shows_dashboard Date_parse w'.
Proof.
  intros He Hc [d Hd]. unfold shows_dashboard, ContentPlannerApp in *.
  unfold useQuery in *. rewrite He, Hc.
  destruct (negb (loading (env w))
            && negb (bool_decide (is_Some (user (env w)))));
    [discriminate |].
  destruct (loading (env w)); [discriminate |].
  destruct (cache w !! content_key) as [e |].
  - destruct (contentItems_of (data e)); [| discriminate]. eexists. reflexivity.
  - simpl. eexists. reflexivity.
Qed.

(** A checkbox is on the page whenever the dashboard is, and its handler
    touches neither the auth context nor the cache. *)
Lemma checkbox_available (a : Action) (w : World) :
  is_checkbox a = true ->
  shows_dashboard Date_parse w ->
  available Date_parse w a
  /\ env (exec (handler moment_add_months a) w) = env w
  /\ cache (exec (handler moment_add_months a) w) = cache w.
Proof.
  intros Hc [d Hd]. unfold available. rewrite Hd.
  destruct a; try discriminate Hc; repeat split.
Qed.

Lemma run_checkboxes_shown (actions : list Action) (w : World) :
  forallb is_checkbox actions = true ->
  reachable_shown Date_parse moment_add_months w ->
  shows_dashboard Date_parse w ->
  reachable_shown Date_parse moment_add_months
    (run_actions moment_add_months actions w).
Proof.
  revert w. induction actions as [| a rest IH]; intros w Hall Hr Hd; [exact Hr |].
  simpl in Hall. apply andb_true_iff in Hall as [Ha Hrest].
  destruct (checkbox_available a w Ha Hd) as [Hav [He Hc]].
  apply (IH _ Hrest).
  - apply (reachable_shown_step Date_parse moment_add_months w); [exact Hr |].
    apply shown_action. exact Hav.
  - apply (shows_dashboard_frame w); assumption.
Qed.

(** Every world a user can reach is a world of the wider step relation,
    so what holds in every reachable state holds in these. *)
Lemma reachable_shown_reachable (w : World) :
  reachable_shown Date_parse moment_add_months w ->
  reachable moment_add_months w.
Proof.
  induction 1 as [e c | w w' _ IH Hstep]; [apply reachable_init |].
  apply (reachable_step moment_add_months w); [exact IH |].
  destruct Hstep as [a w Hav | w | e w | c w].
  - apply step_action. unfold available in Hav.
    destruct (ContentPlannerApp Date_parse w); destruct a;
      try reflexivity; try (exfalso; exact Hav).
    apply existsb_exists. exists viewOption.
    split; [exact Hav | apply String.eqb_refl].
  - apply step_remount.
  - apply step_env.
  - apply step_cache.
Qed.

(** X14: every combination of the six flags can be reached with the
    checkboxes: from any state a user can reach in which the dashboard is
    on the page, six checkbox changes lead to a state a user can reach
    whose filters are the wanted ones and in which nothing else has
    changed. *)
Theorem every_filter_state_reachable :
  forall (w : World) (f : Filters),
    reachable_shown Date_parse moment_add_months w ->
    shows_dashboard Date_parse w ->
    let w' := run_actions moment_add_months (check_all f) w in
    reachable_shown Date_parse moment_add_months w'
    /\ shows_dashboard Date_parse w'
    /\ filters (ui w') = f
    /\ view (ui w') = view (ui w)
    /\ editingItem (ui w') = editingItem (ui w)
    /\ isModalOpen (ui w') = isModalOpen (ui w)
    /\ cache w' = cache w
    /\ log w' = log w.
Proof.
  intros w f Hr Hd w'. split.
  - apply run_checkboxes_shown; [reflexivity | exact Hr | exact Hd].
  - subst w'. rewrite run_check_all. split.
    + apply (shows_dashboard_frame w); [reflexivity | reflexivity | exact Hd].
    + repeat split.
Qed.

End ReachFacts.

Lemma every_filter_state_reachable_witness :
  let w := initial_world
             (sample_env (Some {| userEmail := Some "ana@example.org" |})
                         false false)
             {[ content_key := sample_entry [sample_item "blog" "draft"] ]} in
  let f := with_status_flag Posted false
             (with_platform_flag Email false initial_filters) in
  let w' := run_actions sample_moment (check_all f) w in
  reachable_shown sample_parse sample_moment w
  /\ shows_dashboard sample_parse w
  /\ reachable_shown sample_parse sample_moment w'
  /\ filters (ui w') = f.
Proof.
  intros w f w'.
  assert (Hr : reachable_shown sample_parse sample_moment w)
    by apply reachable_shown_init.
  assert (Hd : shows_dashboard sample_parse w) by (eexists; reflexivity).
  pose proof (every_filter_state_reachable sample_parse sample_moment w f Hr Hd)
    as [H1 [_ [H2 _]]].
  split; [exact Hr |]. split; [exact Hd |]. split; [exact H1 | exact H2].
Defined.

Lemma only_delete_touches_cache_witness :
  let w := initial_world (sample_env None false false)
             {[ content_key := sample_entry [sample_item "blog" "draft"] ]} in
  (forall id, SignOutClick <> DeleteMutate id)
  /\ cache (exec (handler sample_moment SignOutClick) w) = cache w.
Proof.
  intros w.
  assert (H : forall id, SignOutClick <> DeleteMutate id) by discriminate.
  split; [exact H | exact (only_delete_touches_cache sample_moment _ w H)].
Defined.

Lemma only_checkboxes_touch_filters_witness :
  let w := exec (platform_onCheckedChange Blog false)
             (initial_world (sample_env None false false) ∅) in
  let l := [sample_item "blog" "draft"; sample_item "email" "posted"] in
  is_checkbox (SuggestionUse (ArgObject {| Suggestion.title := "Clip";
                                           Suggestion.platform := "blog" |})) = false
  /\ filteredItems
       (filters (ui (exec (handler sample_moment
                             (SuggestionUse
                                (ArgObject {| Suggestion.title := "Clip";
                                              Suggestion.platform := "blog" |})))
                          w))) l
     = filteredItems (filters (ui w)) l.
Proof.
  intros w l. split; [reflexivity |].
  exact (proj2 (only_checkboxes_touch_filters sample_moment
                  (SuggestionUse (ArgObject {| Suggestion.title := "Clip";
                                               Suggestion.platform := "blog" |}))
                  w l eq_refl)).
Defined.

Lemma closed_modal_edits_nothing_witness :
  let w0 := initial_world (sample_env None false false) ∅ in
  let w1 := exec (handler sample_moment
                    (SelectEvent (to_event sample_parse
                                    (sample_item "blog" "draft")))) w0 in
  let w2 := exec (handler sample_moment ContentModalClose) w1 in
  reachable sample_moment w2
  /\ isModalOpen (ui w1) = true
  /\ isModalOpen (ui w2) = false
  /\ editingItem (ui w2) = None.
Proof.
  intros w0 w1 w2.
  assert (H : reachable sample_moment w2).
  { apply (reachable_step sample_moment w1 w2).
    - apply (reachable_step sample_moment w0 w1).
      + apply reachable_init.
      + apply step_action. reflexivity.
    - apply step_action. reflexivity. }
  split; [exact H |]. split; [reflexivity |]. split; [reflexivity |].
  exact (closed_modal_edits_nothing sample_moment w2 H eq_refl).
Defined.

(* ===================================================================== *)
(** * What reaches the calendar and the modal                             *)
(* ===================================================================== *)

Section CalendarFacts.

Variable Date_parse : string -> TimeValue.

Lemma events_In (f : Filters) (contentItems : list ContentItem.t)
    (ev : CalendarEvent.t) :
  In ev (events Date_parse f contentItems) ->
  exists item,
    ev = to_event Date_parse item
    /\ In item contentItems
    /\ ToBoolean (filter_callback f item) = true.
Proof.
  unfold events. intros H. apply List.in_map_iff in H as [item [<- Hin]].
  apply filteredItems_In in Hin as [Hin Hkeep].
  exists item. split; [reflexivity |]. split; [exact Hin | exact Hkeep].
Qed.

(** X15: selecting an event of the calendar opens the modal on the item
    the event was made from, which is an item of the fetched list that
    passes the current filters. *)
Theorem selected_event_edits_fetched_item :
  forall (f : Filters) (contentItems : list ContentItem.t)
         (ev : CalendarEvent.t) (w : World),
    In ev (events Date_parse f contentItems) ->
    exists item,
      editingItem (ui (exec (handleSelectEvent ev) w)) = Some item
      /\ isModalOpen (ui (exec (handleSelectEvent ev) w)) = true
      /\ ev = to_event Date_parse item
      /\ In item contentItems
      /\ ToBoolean (filter_callback f item) = true.
Proof.
  intros f contentItems ev w Hin.
  destruct (events_In f contentItems ev Hin) as [item [-> [Hi Hk]]].
  exists item. repeat split; assumption.
Qed.

Lemma dashboard_inv (w : World) (d : DashboardView) :
  ContentPlannerApp Date_parse w = Dashboard d ->
  dash_platformCounts d
  = (count_platform "social" (cached_items w),
     count_platform "email" (cached_items w),
     count_platform "blog" (cached_items w))
  /\ dash_calendar d
     = if snd (useQuery content_key w) then None
       else Some (events Date_parse (filters (ui w)) (cached_items w)).
Proof.
  unfold ContentPlannerApp, cached_items.
  destruct (negb (loading (env w)) && negb (bool_decide (is_Some (user (env w)))));
    [discriminate |].
  destruct (loading (env w)); [discriminate |].
  destruct (useQuery content_key w) as [q isLoading]. simpl.
  destruct (contentItems_of q); [| discriminate].
  intros [= <-]. split; reflexivity.
Qed.

Lemma cached_items_In (w : World) (item : ContentItem.t) :
  In item (cached_items w) ->
  exists e items,
    cache w !! content_key = Some e
    /\ data e = Some (ContentList items)
    /\ In item items.
Proof.
  unfold cached_items, useQuery.
  destruct (cache w !! content_key) as [e |]; simpl; [| intros []].
  destruct (data e) as [[items | json] |] eqn:E; simpl; try (intros []).
  intros H. exists e, items. split; [reflexivity |]. split; [exact E | exact H].
Qed.

(** X16: every event on the calendar of the dashboard carries an item of
    the list cached under [/api/content] that passes the current
    filters; no other cache entry and no filtered-out item reaches the
    calendar. *)
Theorem dashboard_events_from_cache :
  forall (w : World) (d : DashboardView) (evs : list CalendarEvent.t)
         (ev : CalendarEvent.t),
    ContentPlannerApp Date_parse w = Dashboard d ->
    dash_calendar d = Some evs ->
    In ev evs ->
    exists e items,
      cache w !! content_key = Some e
      /\ data e = Some (ContentList items)
      /\ In (CalendarEvent.resource ev) items
      /\ ToBoolean (filter_callback (filters (ui w)) (CalendarEvent.resource ev))
         = true.
Proof.
  intros w d evs ev Hd Hc Hin.
  destruct (dashboard_inv w d Hd) as [_ Hcal]. rewrite Hcal in Hc.
  destruct (snd (useQuery content_key w)); [discriminate |].
  injection Hc as <-.
  destruct (events_In _ _ ev Hin) as [item [-> [Hi Hk]]].
  destruct (cached_items_In w item Hi) as [e [items [H1 [H2 H3]]]].
  exists e, items. repeat split; assumption.
Qed.

(** X17: while the list has no cached data (no entry under
    [/api/content], or an entry whose data is still missing), the
    dashboard counts no item for any platform and shows no event: the
    calendar is replaced by the spinner or is empty. *)
Theorem dashboard_without_data :
  forall (w : World) (d : DashboardView),
    ContentPlannerApp Date_parse w = Dashboard d ->
    cache w !! content_key ≫= data = None ->
    dash_platformCounts d = (0, 0, 0)%nat
    /\ (dash_calendar d = None \/ dash_calendar d = Some []).
Proof.
  intros w d Hd Hnone.
  destruct (dashboard_inv w d Hd) as [Hcount Hcal].
  assert (Hitems : cached_items w = []).
  { unfold cached_items, useQuery.
    destruct (cache w !! content_key) as [e |]; [| reflexivity].
    simpl in Hnone. rewrite Hnone. reflexivity. }
  rewrite Hitems in Hcount, Hcal. split; [exact Hcount |].
  rewrite Hcal. destruct (snd (useQuery content_key w)); [left | right]; reflexivity.
Qed.

End CalendarFacts.

Lemma selected_event_edits_fetched_item_witness :
  let item := sample_item "blog" "draft" in
  let l := [sample_item "email" "posted"; item] in
  let ev := to_event sample_parse item in
  let w := initial_world (sample_env None false false) ∅ in
  In ev (events sample_parse initial_filters l)
  /\ exists shown,
       editingItem (ui (exec (handleSelectEvent ev) w)) = Some shown
       /\ isModalOpen (ui (exec (handleSelectEvent ev) w)) = true
       /\ ev = to_event sample_parse shown
       /\ In shown l
       /\ ToBoolean (filter_callback initial_filters shown) = true.
Proof.
  intros item l ev w.
  assert (H : In ev (events sample_parse initial_filters l)).
  { right. left. reflexivity. }
  split; [exact H |].
  exact (selected_event_edits_fetched_item sample_parse initial_filters l ev w H).
Defined.

Lemma dashboard_events_from_cache_witness :
  let item := sample_item "blog" "draft" in
  let w := initial_world
             (sample_env (Some {| userEmail := Some "ana@example.org" |})
                         false false)
             {[ content_key := sample_entry [item];
                ["/api/analytics"] := sample_entry [sample_item "email" "posted"] ]} in
  exists d evs,
    ContentPlannerApp sample_parse w = Dashboard d
    /\ dash_calendar d = Some evs
    /\ evs = [to_event sample_parse item]
    /\ exists e items,
         cache w !! content_key = Some e
         /\ data e = Some (ContentList items)
         /\ In (CalendarEvent.resource (to_event sample_parse item)) items
         /\ ToBoolean (filter_callback (filters (ui w))
                         (CalendarEvent.resource (to_event sample_parse item)))
            = true.
Proof.
  intros item w. eexists. eexists.
  split; [reflexivity |]. split; [reflexivity |]. split; [reflexivity |].
  refine (dashboard_events_from_cache sample_parse w _ _
            (to_event sample_parse item) eq_refl eq_refl _).
  left. reflexivity.
Defined.

Lemma dashboard_without_data_witness :
  let w := initial_world
             (sample_env (Some {| userEmail := None |}) false false)
             {[ ["/api/analytics"] := sample_entry [sample_item "email" "posted"] ]} in
  exists d,
    ContentPlannerApp sample_parse w = Dashboard d
    /\ cache w !! content_key ≫= data = None
    /\ dash_platformCounts d = (0, 0, 0)%nat
    /\ (dash_calendar d = None \/ dash_calendar d = Some []).
Proof.
  intros w. eexists. split; [reflexivity |]. split; [reflexivity |].
  exact (dashboard_without_data sample_parse w _ eq_refl eq_refl).
Defined.

(* ===================================================================== *)
(** * Event styles                                                        *)
(* ===================================================================== *)

(** X18: an event whose status is neither scheduled nor posted (a draft,
    or any other string) is drawn in the grey of a draft, background and
    border alike, whatever its platform is; and an event whose platform
    is neither email nor blog is drawn with the indigo bar of social,
    whatever its status is. *)
Theorem eventStyle_fallback :
  forall (ev : CalendarEvent.t),
    (ContentItem.status (CalendarEvent.resource ev) <> "scheduled" ->
     ContentItem.status (CalendarEvent.resource ev) <> "posted" ->
     backgroundColor (eventStyleGetter ev) = "#6b7280"
     /\ borderColor (eventStyleGetter ev) = "#6b7280")
    /\ (ContentItem.platform (CalendarEvent.resource ev) <> "email" ->
        ContentItem.platform (CalendarEvent.resource ev) <> "blog" ->
        borderRight (eventStyleGetter ev) = "3px solid #6366f1").
Proof.
  intros ev. unfold eventStyleGetter. split.
  - intros H1 H2. apply String.eqb_neq in H1, H2. rewrite H1, H2.
    split; reflexivity.
  - intros H3 H4. apply String.eqb_neq in H3, H4. rewrite H3, H4.
    destruct (String.eqb _ "scheduled"); [reflexivity |].
    destruct (String.eqb _ "posted"); reflexivity.
Qed.

Lemma eventStyle_fallback_witness :
  let unknown_status := to_event sample_parse (sample_item "email" "toString") in
  let unknown_platform := to_event sample_parse (sample_item "valueOf" "posted") in
  (backgroundColor (eventStyleGetter unknown_status) = "#6b7280"
   /\ borderColor (eventStyleGetter unknown_status) = "#6b7280"
   /\ borderRight (eventStyleGetter unknown_status) = "3px solid #ef4444")
  /\ (borderRight (eventStyleGetter unknown_platform) = "3px solid #6366f1"
      /\ backgroundColor (eventStyleGetter unknown_platform) = "#10b981").
Proof.
  intros unknown_status unknown_platform. split.
  - destruct (proj1 (eventStyle_fallback unknown_status))
      as [H1 H2]; try discriminate.
    split; [exact H1 |]. split; [exact H2 | reflexivity].
  - split; [| reflexivity].
    apply (proj2 (eventStyle_fallback unknown_platform)); discriminate.
Defined.

Lemma eventStyle_enumerated (ev : CalendarEvent.t) (s : Status) (p : Platform) :
  ContentItem.status (CalendarEvent.resource ev) = status_key s ->
  ContentItem.platform (CalendarEvent.resource ev) = platform_key p ->
  eventStyleGetter ev
  = {| backgroundColor := match s with
                          | Draft => "#6b7280"
                          | Scheduled => "#f59e0b"
                          | Posted => "#10b981"
                          end;
       borderColor := match s with
                      | Draft => "#6b7280"
                      | Scheduled => "#f59e0b"
                      | Posted => "#10b981"
                      end;
       borderRight := match p with
                      | Social => "3px solid #6366f1"
                      | Email => "3px solid #ef4444"
                      | Blog => "3px solid #8b5cf6"
                      end;
       color := "white"; fontSize := "12px"; padding := "2px 4px";
       borderRadius := "4px" |}.
Proof.
  intros Hs Hp. unfold eventStyleGetter. rewrite Hs, Hp.
  destruct s, p; reflexivity.
Qed.

(** X19: background and border colour agree for every event; the style
    looks at nothing but the status and the platform of the item; and two
    events with enumerated status and platform get the same style exactly
    when they have the same status and the same platform. *)
Theorem eventStyle_separates :
  (forall ev : CalendarEvent.t,
      backgroundColor (eventStyleGetter ev) = borderColor (eventStyleGetter ev))
  /\ (forall ev1 ev2 : CalendarEvent.t,
         ContentItem.status (CalendarEvent.resource ev1)
         = ContentItem.status (CalendarEvent.resource ev2) ->
         ContentItem.platform (CalendarEvent.resource ev1)
         = ContentItem.platform (CalendarEvent.resource ev2) ->
         eventStyleGetter ev1 = eventStyleGetter ev2)
  /\ (forall (ev1 ev2 : CalendarEvent.t) (s1 s2 : Status) (p1 p2 : Platform),
         ContentItem.status (CalendarEvent.resource ev1) = status_key s1 ->
         ContentItem.platform (CalendarEvent.resource ev1) = platform_key p1 ->
         ContentItem.status (CalendarEvent.resource ev2) = status_key s2 ->
         ContentItem.platform (CalendarEvent.resource ev2) = platform_key p2 ->
         (eventStyleGetter ev1 = eventStyleGetter ev2 <-> s1 = s2 /\ p1 = p2)).
Proof.
  split; [| split].
  - intros ev. unfold eventStyleGetter.
    destruct (String.eqb _ "scheduled"); [reflexivity |].
    destruct (String.eqb _ "posted"); reflexivity.
  - intros ev1 ev2 Hs Hp. unfold eventStyleGetter. rewrite Hs, Hp. reflexivity.
  - intros ev1 ev2 s1 s2 p1 p2 Hs1 Hp1 Hs2 Hp2.
    rewrite (eventStyle_enumerated ev1 s1 p1 Hs1 Hp1).
    rewrite (eventStyle_enumerated ev2 s2 p2 Hs2 Hp2).
    split.
    + intros H. destruct s1, s2, p1, p2; (split; reflexivity) || discriminate H.
    + intros [-> ->]. reflexivity.
Qed.

Lemma eventStyle_separates_witness :
  let ev1 := to_event sample_parse (sample_item "email" "posted") in
  let ev2 := to_event sample_parse (sample_item "blog" "posted") in
  let odd := to_event sample_parse (sample_item "valueOf" "toString") in
  backgroundColor (eventStyleGetter odd) = borderColor (eventStyleGetter odd)
  /\ (eventStyleGetter ev1 = eventStyleGetter ev2
      <-> Posted = Posted /\ Email = Blog)
  /\ eventStyleGetter ev1 <> eventStyleGetter ev2.
Proof.
  intros ev1 ev2 odd.
  destruct eventStyle_separates as [Hagree [_ Hsep]].
  pose proof (Hsep ev1 ev2 Posted Posted Email Blog eq_refl eq_refl eq_refl eq_refl)
    as Hiff.
  split; [apply Hagree |]. split; [exact Hiff |].
  intros H. apply Hiff in H as [_ H]. discriminate H.
Defined.

(* ===================================================================== *)
(** * Platform counts                                                     *)
(* ===================================================================== *)

Lemma filter_sublist_mono {A} (keep : A -> bool) (l1 l2 : list A) :
  sublist l1 l2 -> sublist (List.filter keep l1) (List.filter keep l2).
Proof.
  induction 1 as [| x l1 l2 _ IH | x l1 l2 _ IH]; simpl.
  - constructor.
  - destruct (keep x); [apply sublist_skip |]; exact IH.
  - destruct (keep x); [apply sublist_cons |]; exact IH.
Qed.

(** X20: the three badges count every item whose platform is social,
    email or blog exactly once and no other item: the three counts and
    the number of items with another platform add up to the length of the
    fetched list. *)
Theorem platformCounts_partition :
  forall (contentItems : list ContentItem.t),
    (count_platform "social" contentItems
     + count_platform "email" contentItems
     + count_platform "blog" contentItems
     + count_uncounted contentItems
     = length contentItems)%nat.
Proof.
  unfold count_platform, count_uncounted, platform_of_key.
  induction contentItems as [| item rest IH]; [reflexivity |].
  cbn [List.filter].
  destruct (String.eqb_spec (ContentItem.platform item) "social") as [E | _].
  - rewrite E. cbn [String.eqb Ascii.eqb Bool.eqb length]. simpl. lia.
  - destruct (String.eqb_spec (ContentItem.platform item) "email") as [E | _].
    + rewrite E. simpl. lia.
    + destruct (String.eqb_spec (ContentItem.platform item) "blog") as [E | _];
        simpl; lia.
Qed.

(** X21: the badges are counted on the fetched list, not on the filtered
    one: a platform's badge is never below the number of its items on
    the calendar, and when the platform is unchecked the calendar holds
    none of its items while the badge still counts them all. *)
Theorem platformCounts_ignore_filters :
  forall (f : Filters) (contentItems : list ContentItem.t) (p : Platform),
    (count_platform (platform_key p) (filteredItems f contentItems)
     <= count_platform (platform_key p) contentItems)%nat
    /\ count_platform (platform_key p)
         (filteredItems (with_platform_flag p false f) contentItems) = 0%nat.
Proof.
  intros f contentItems p. split.
  - unfold count_platform. apply sublist_length, filter_sublist_mono.
    apply filter_sublist_self.
  - unfold count_platform.
    induction contentItems as [| item rest IH]; [reflexivity |].
    unfold filteredItems in *. cbn [List.filter].
    destruct (ToBoolean (filter_callback (with_platform_flag p false f) item))
      eqn:Hkeep; [| exact IH].
    cbn [List.filter].
    destruct (String.eqb_spec (ContentItem.platform item) (platform_key p))
      as [Heq | _]; [| exact IH].
    rewrite filter_callback_platform_off in Hkeep; [discriminate |].
    rewrite Heq. simpl. rewrite lookup_platforms_key, platform_flag_set.
    rewrite bool_decide_eq_true_2 by reflexivity. reflexivity.
Qed.

(* ===================================================================== *)
(** * More on routing                                                     *)
(* ===================================================================== *)

Lemma matchRoute_named (p location : string) :
  In p named_paths ->
  matchRoute (Some p) location = String.eqb (canonical location) (canonical p).
Proof.
  intros H. simpl in H.
  repeat (destruct H as [<- | H];
          [erewrite matchRoute_literal by reflexivity; reflexivity |]).
  destruct H.
Qed.

(** X22: the six paths of the table do not overlap: no location is
    matched by two of them, so which page a location resolves to does not
    depend on the order the routes are listed in. *)
Theorem routes_do_not_overlap :
  forall (location p q : string),
    In p named_paths ->
    In q named_paths ->
    matchRoute (Some p) location = true ->
    matchRoute (Some q) location = true ->
    p = q.
Proof.
  intros location p q Hp Hq Mp Mq.
  rewrite (matchRoute_named p location Hp) in Mp.
  rewrite (matchRoute_named q location Hq) in Mq.
  apply String.eqb_eq in Mp, Mq.
  assert (Hc : canonical p = canonical q) by congruence.
  clear Mp Mq. simpl in Hp, Hq.
  repeat (destruct Hp as [<- | Hp]; [
    repeat (destruct Hq as [<- | Hq]; [reflexivity || discriminate Hc |]);
    destruct Hq |]).
  destruct Hp.
Qed.

Lemma routes_do_not_overlap_witness :
  In "/app" named_paths
  /\ matchRoute (Some "/app") "/App/" = true
  /\ "/app" = "/app".
Proof.
  assert (H : In "/app" named_paths) by (right; left; reflexivity).
  split; [exact H |]. split; [reflexivity |].
  exact (routes_do_not_overlap "/App/" "/app" "/app" H H eq_refl eq_refl).
Defined.

Lemma toLower_slash (c : ascii) : Ascii.eqb (toLower c) "/" = Ascii.eqb c "/".
Proof. destruct c as [[] [] [] [] [] [] [] []]; reflexivity. Qed.

Lemma lowercase_app (a b : string) :
  lowercase (a ++ b) = lowercase a ++ lowercase b.
Proof.
  induction a as [| c rest IH]; [reflexivity |].
  simpl. rewrite IH. reflexivity.
Qed.

Lemma drop_last_slash_lowercase (s : string) :
  drop_last_slash (lowercase s) = lowercase (drop_last_slash s).
Proof.
  induction s as [| c rest IH]; [reflexivity |].
  destruct rest as [| c' rest'].
  - simpl. rewrite toLower_slash. destruct (Ascii.eqb c "/"); reflexivity.
  - change (lowercase (String c (String c' rest')))
      with (String (toLower c) (String (toLower c') (lowercase rest'))).
    change (drop_last_slash (String c (String c' rest')))
      with (String c (drop_last_slash (String c' rest'))).
    change (drop_last_slash
              (String (toLower c) (String (toLower c') (lowercase rest'))))
      with (String (toLower c)
              (drop_last_slash (String (toLower c') (lowercase rest')))).
    change (String (toLower c') (lowercase rest'))
      with (lowercase (String c' rest')).
    rewrite IH. reflexivity.
Qed.

Lemma byte_is_toLower (c : ascii) :
  byte_is (toLower c) 10 = byte_is c 10
  /\ byte_is (toLower c) 13 = byte_is c 13
  /\ byte_is (toLower c) 226 = byte_is c 226
  /\ byte_is (toLower c) 128 = byte_is c 128
  /\ byte_is (toLower c) 168 = byte_is c 168
  /\ byte_is (toLower c) 169 = byte_is c 169.
Proof. destruct c as [[] [] [] [] [] [] [] []]; repeat split. Qed.

Lemma has_line_break_lowercase (s : string) :
  has_line_break (lowercase s) = has_line_break s.
Proof.
  induction s as [| c rest IH]; [reflexivity |].
  cbn [lowercase has_line_break]. rewrite IH.
  destruct (byte_is_toLower c) as [-> [-> [-> _]]].
  destruct rest as [| c1 [| c2 rest']]; cbn [lowercase]; try reflexivity.
  destruct (byte_is_toLower c1) as [_ [_ [_ [-> _]]]].
  destruct (byte_is_toLower c2) as [_ [_ [_ [_ [-> ->]]]]].
  reflexivity.
Qed.

Lemma wildcard_match_lowercase (s : string) :
  wildcard_match (lowercase s) = wildcard_match s.
Proof.
  destruct s as [| c rest]; [reflexivity |].
  cbn [lowercase wildcard_match]. rewrite toLower_slash, has_line_break_lowercase.
  reflexivity.
Qed.

(** Adding a slash at the end of a string adds no line break. *)
Lemma has_line_break_app_slash (s : string) :
  has_line_break (s ++ "/") = has_line_break s.
Proof.
  induction s as [| c rest IH]; [reflexivity |].
  change (String c rest ++ "/") with (String c (rest ++ "/")).
  cbn [has_line_break]. rewrite IH.
  destruct rest as [| c1 [| c2 rest']]; try reflexivity.
  change (String c1 "" ++ "/") with (String c1 (String "/" "")).
  cbv iota beta.
  destruct (byte_is c 226), (byte_is c1 128); reflexivity.
Qed.

Lemma Router_agree (l1 l2 : string) :
  canonical l1 = canonical l2 ->
  wildcard_match l1 = wildcard_match l2 ->
  Router l1 = Router l2.
Proof.
  intros Hc Hw. rewrite !Router_find, Hc, Hw. reflexivity.
Qed.

(** X23: routing ignores letter case and one trailing slash: a location
    that differs from [l] (which has no trailing slash) only in the case
    of its letters resolves to the same page as [l], and so does that
    location with one slash added at its end. *)
Theorem Router_ignores_case_and_slash :
  forall (l other : string),
    lowercase other = lowercase l ->
    drop_last_slash l = l ->
    Router other = Router l
    /\ Router (other ++ "/") = Router l.
Proof.
  intros l other Hcase Hslash.
  assert (Hw : wildcard_match other = wildcard_match l).
  { rewrite <- (wildcard_match_lowercase other), Hcase.
    apply wildcard_match_lowercase. }
  split.
  - apply Router_agree; [| exact Hw]. unfold canonical. rewrite Hcase. reflexivity.
  - destruct other as [| c rest].
    + destruct l; [reflexivity | discriminate Hcase].
    + apply Router_agree.
      * unfold canonical. rewrite lowercase_app, Hcase.
        change (lowercase "/") with "/". rewrite drop_last_slash_app_slash.
        rewrite drop_last_slash_lowercase, Hslash. reflexivity.
      * rewrite <- Hw.
        change (String c rest ++ "/") with (String c (rest ++ "/")).
        cbn [wildcard_match]. rewrite has_line_break_app_slash. reflexivity.
Qed.

Lemma Router_ignores_case_and_slash_witness :
  lowercase "/Bulk-Scheduling" = lowercase "/bulk-scheduling"
  /\ Router "/Bulk-Scheduling" = Some BulkScheduling
  /\ Router ("/Bulk-Scheduling" ++ "/") = Router "/bulk-scheduling".
Proof.
  pose proof (Router_ignores_case_and_slash "/bulk-scheduling" "/Bulk-Scheduling"
                eq_refl eq_refl) as [H1 H2].
  split; [reflexivity |]. split; [rewrite H1; reflexivity | exact H2].
Defined.

(* ===================================================================== *)
(** * Signing out                                                         *)
(* ===================================================================== *)

(** X24: signing out calls the provider once and shows exactly one toast,
    a success toast when the call resolves and an error toast when it
    rejects; neither way does the handler throw, touch the component
    state or touch the cache. *)
Theorem signOut_one_call_one_toast :
  forall (w : World),
    let w' := exec handleSignOut w in
    outcome handleSignOut w = Normal tt
    /\ requests (log w') = (requests (log w) ++ [SignOutCall])%list
    /\ toasts (log w')
       = (toasts (log w)
          ++ [if signOut_rejects (env w)
              then ToastError "Failed to sign out"
              else ToastSuccess "Signed out successfully"])%list
    /\ ui w' = ui w
    /\ cache w' = cache w.
Proof.
  intros w w'. subst w'. unfold exec, outcome. rewrite handleSignOut_run. simpl.
  rewrite requests_app, toasts_app.
  destruct (signOut_rejects (env w)); repeat split.
Qed.

(* ===================================================================== *)
(** * The delete request                                                  *)
(* ===================================================================== *)

(** X25: a run of the delete mutation sends exactly one request, a DELETE
    to [/api/content/] followed by the id, and shows exactly one toast,
    whichever way the request ends; it asks for an invalidation exactly
    when the request resolved; and two ids never share a request path. *)
Theorem delete_one_request_one_toast :
  forall (w : World) (id id' : string),
    let w' := exec (mutate deleteMutation id) w in
    requests (log w')
    = (requests (log w) ++ [ApiRequest "DELETE" ("/api/content/" ++ id)])%list
    /\ length (toasts (log w')) = S (length (toasts (log w)))
    /\ invalidations (log w')
       = (invalidations (log w)
          ++ if apiRequest_rejects (env w) "DELETE" ("/api/content/" ++ id)
             then [] else [content_key])%list
    /\ ("/api/content/" ++ id = "/api/content/" ++ id' -> id = id').
Proof.
  intros w id id' w'. subst w'. unfold exec.
  destruct (apiRequest_rejects (env w) "DELETE" ("/api/content/" ++ id)) eqn:E.
  - rewrite (deleteMutation_rejected_run id w E). simpl.
    rewrite requests_app, toasts_app, invalidations_app, length_app. simpl.
    repeat split; try lia. intros [= H]. exact H.
  - rewrite (deleteMutation_resolved_run id w E). simpl.
    rewrite requests_app, toasts_app, invalidations_app, length_app. simpl.
    repeat split; try lia. intros [= H]. exact H.
Qed.
